(** * sangu-bri: the signed request pipeline of the BRI Direct-Debit client

    A shallow embedding of the Go package [bri]: the HTTP transport of the
    client ([NewRequest], [ExecuteRequest], [Call]), the endpoint switch
    ([DirectDebitHostUseSandboxPrefix]) and the Direct-Debit operations
    ([CreateCardTokenOTP] and its siblings), followed by the properties the
    specification states about them.

    Go values are modelled as follows.
    - [string] and [[]byte] are Rocq strings (sequences of bytes);
    - [int] and [time.Duration] are [Z];
    - [map[string]string] is [gmap string string], [http.Header] is
      [gmap string (list string)];
    - an [error] is [option error], [None] being [nil];
    - an [interface{}] sink is [option T]: [None] is the nil interface,
      [Some x] a pointer whose target currently holds [x];
    - the logger and the package-level variables are the [World] that every
      effectful function takes and returns.
    What the package calls but does not define (the clock, the HTTP client,
    the URL parser, the JSON codec, the signer) is a field of the class
    [Env] or of the class [JSON]; every theorem holds for every instance. *)

From Stdlib Require Import String Ascii ZArith List.
From stdpp Require Import gmap strings list fin_maps.

Open Scope Z_scope.
Open Scope string_scope.

(** ** Errors *)

(** A Go [error] value.  [errorString s] is what [errors.New s] returns;
    [foreignError d] is an error made by a library (net/http, heimdall, io,
    encoding/json) whose text is [d]. *)
Inductive error : Type :=
| errorString (s : string)
| foreignError (descr : string).

Definition errors_New (s : string) : error := errorString s.

(** The method [Error()] of the interface. *)
Definition Error (e : error) : string :=
  match e with
  | errorString s => s
  | foreignError d => d
  end.

#[global] Instance error_eq_dec : EqDecision error.
Proof. solve_decision. Defined.

(** ** package time *)

Module time.
Definition Duration := Z.
Definition Time := Z.
Definition Millisecond : Duration := 1000000.
Definition Minute : Duration := 60000000000.
End time.

(** ** package net/textproto and net/http *)

Module textproto.

(** The token bytes of RFC 7230, the table behind [validHeaderFieldByte]. *)
Definition isTokenByte (c : ascii) : bool :=
  let n := N_of_ascii c in
  ((48 <=? n) && (n <=? 57))%N || ((65 <=? n) && (n <=? 90))%N
  || ((97 <=? n) && (n <=? 122))%N
  || bool_decide (c ∈ ["!"; "#"; "$"; "%"; "&"; "'"; "*"; "+"; "-"; "."; "^";
                        "_"; "`"; "|"; "~"]%char).

Definition validHeaderFieldByte (c : ascii) : bool := isTokenByte c.

Definition toUpper (c : ascii) : ascii :=
  let n := N_of_ascii c in
  if ((97 <=? n) && (n <=? 122))%N then ascii_of_N (n - 32) else c.

Definition toLower (c : ascii) : ascii :=
  let n := N_of_ascii c in
  if ((65 <=? n) && (n <=? 90))%N then ascii_of_N (n + 32) else c.

(** The rewriting loop of [canonicalMIMEHeaderKey]: the first letter and
    every letter after a hyphen in upper case, the others in lower case. *)
Fixpoint canonicalize (upper : bool) (s : string) : string :=
  match s with
  | EmptyString => EmptyString
  | String c r =>
      let c' := if upper then toUpper c else toLower c in
      String c' (canonicalize (Ascii.eqb c' "-") r)
  end.

Fixpoint allBytes (p : ascii -> bool) (s : string) : bool :=
  match s with
  | EmptyString => true
  | String c r => p c && allBytes p r
  end.

(** [CanonicalMIMEHeaderKey]: a key holding a byte that is no header field
    byte is returned as it is. *)
Definition CanonicalMIMEHeaderKey (s : string) : string :=
  if allBytes validHeaderFieldByte s then canonicalize true s else s.

End textproto.

Module http.

Definition MethodPost : string := "POST".
Definition MethodPatch : string := "PATCH".
Definition StatusOK : Z := 200.

Record URL := { Host : string; Path : string }.

(** A response body as [ioutil.ReadAll] sees it: the bytes that arrive and
    the error, if any, that ends the stream before its end. *)
Record ReadCloser := { content : string; failure : option error }.

Record Request := {
  Method : string;
  Url : URL;
  Header : gmap string (list string);
  Body : string
}.

Record Response := { StatusCode : Z; ResBody : ReadCloser }.

(** [Header.Set] and [Header.Get]. *)
Definition Header_Set (key value : string) (h : gmap string (list string))
  : gmap string (list string) :=
  <[textproto.CanonicalMIMEHeaderKey key := [value]]> h.

Definition Header_Get (key : string) (h : gmap string (list string)) : string :=
  match h !! textproto.CanonicalMIMEHeaderKey key with
  | Some (v :: _) => v
  | _ => ""
  end.

(** [validMethod]: a non-empty sequence of token bytes. *)
Definition validMethod (method : string) : bool :=
  negb (String.eqb method "") && textproto.allBytes textproto.isTokenByte method.

End http.

Module ioutil.

Definition ReadAll (r : http.ReadCloser) : string * option error :=
  (http.content r, http.failure r).

End ioutil.

(** ** package heimdall *)

Module httpclient.

(** The options [getHTTPClient] builds its client from. *)
Record Client := {
  timeout : time.Duration;
  backoffInterval : time.Duration;
  maximumJitterInterval : time.Duration;
  retryCount : Z
}.

End httpclient.

(** ** package encoding/json *)

(** The codec of a Go type, as encoding/json derives it.  [encode] gives the
    bytes or the error; [decode data x] decodes [data] into a target that
    holds [x] and gives what the target holds afterwards together with the
    error. *)
Class JSON (T : Type) := {
  encode : T -> string + error;
  decode : string -> T -> T * option error
}.

Module json.

(** [json.Marshal]: on an error the bytes are nil. *)
Definition Marshal {T : Type} `{!JSON T} (v : T) : string * option error :=
  match encode v with
  | inl data => (data, None)
  | inr err => ("", Some err)
  end.

(** [json.Unmarshal] into a non-nil pointer. *)
Definition Unmarshal {T : Type} `{!JSON T} (data : string) (v : T) : T * option error :=
  decode data v.

End json.

(** The zero value of a Go type. *)
Class Zero (T : Type) := zero : T.

(** ** The world of the package *)

(** One operand of a [Println] call. *)
Inductive LogArg : Type :=
| LStr (s : string)
| LErr (e : error)
| LInt (n : Z)
| LDur (d : time.Duration).

(** The package-level endpoint variables.  [direct_debit.go] declares four
    of them with their first values; [DirectDebitHostUseSandboxPrefix]
    assigns all seven, so all seven are variables of the package. *)
Record Endpoints := {
  urlCreateCardTokenOTP : string;
  urlCreateCardTokenOTPVerify : string;
  urlDeleteCardToken : string;
  urlCreatePaymentChargeOTP : string;
  urlCreatePaymentChargeOTPVerify : string;
  urlChargeDetail : string;
  urlRefundDirectDebit : string
}.

(** The state the package reads and writes: its endpoint variables and the
    lines written to the logger so far, the oldest first. *)
Record World := {
  urls : Endpoints;
  logged : list (list LogArg)
}.

(** [logger.Println]. *)
Definition Println (args : list LogArg) (w : World) : World :=
  {| urls := urls w; logged := logged w ++ [args] |}.

(** What the package takes from outside. *)
Class Env := {
  (** [ErrPendingTransaction], a package variable declared outside the
      sources *)
  ErrPendingTransaction : error;
  (** [time.Now()] and [time.Since] *)
  time_Now : time.Time;
  time_Since : time.Time -> time.Duration;
  (** the method [Do] of the heimdall client: the response and the error *)
  httpclient_Do : httpclient.Client -> http.Request -> http.Response * option error;
  (** [url.Parse] *)
  url_Parse : string -> http.URL + error;
  (** the order in which [range] visits the entries of a map *)
  range_order : gmap string string -> list (string * string);
  range_order_perm : forall m, range_order m ≡ₚ map_to_list m
}.

(** [http.NewRequest]. *)
Definition http_NewRequest `{Env} (method url body : string) : http.Request + error :=
  let method := if String.eqb method "" then "GET" else method in
  if negb (http.validMethod method) then
    inr (foreignError ("net/http: invalid method " +:+ method))
  else
    match url_Parse url with
    | inr err => inr err
    | inl u => inl {| http.Method := method; http.Url := u;
                      http.Header := ∅; http.Body := body |}
    end.

(** ** The client (the transport) *)

Record Client := {
  BaseUrl : string;
  DirectDebitBaseURL : string;
  ClientId : string;
  ClientSecret : string;
  APIKey : string;
  LogLevel : Z;
  Timeout : time.Duration;
  IsProduction : bool
}.

(** [NewClient].  The [Logger] field is the [logged] component of the
    world: every client holds a logger, as [NewClient] gives it one. *)
Definition NewClient : Client :=
  {| BaseUrl := ""; DirectDebitBaseURL := ""; ClientId := "";
     ClientSecret := ""; APIKey := "";
     LogLevel := 2;
     Timeout := 3 * time.Minute;
     IsProduction := false |}.

Definition defHTTPBackoffInterval : time.Duration := 2 * time.Millisecond.
Definition defHTTPMaxJitterInterval : time.Duration := 5 * time.Millisecond.
Definition defHTTPRetryCount : Z := 3.

Definition getHTTPClient (c : Client) : httpclient.Client :=
  {| httpclient.timeout := Timeout c;
     httpclient.backoffInterval := defHTTPBackoffInterval;
     httpclient.maximumJitterInterval := defHTTPMaxJitterInterval;
     httpclient.retryCount := defHTTPRetryCount |}.

(** [DirectDebitHostUseSandboxPrefix] assigns the seven endpoint variables. *)
Definition DirectDebitHostUseSandboxPrefix (c : Client) (use : bool) (w : World) : World :=
  if use then
    {| urls := {| urlCreateCardTokenOTP := "/sandbox/v1/directdebit/tokens";
                  urlCreateCardTokenOTPVerify := "/sandbox/v1/directdebit/tokens";
                  urlDeleteCardToken := "/sandbox/v1/directdebit/tokens";
                  urlCreatePaymentChargeOTP := "/sandbox/v1/directdebit/charges";
                  urlCreatePaymentChargeOTPVerify := "/sandbox/v1/directdebit/charges/verify";
                  urlChargeDetail := "/sandbox/v1/directdebit/charges/inquiry";
                  urlRefundDirectDebit := "/sandbox/v1/directdebit/refunds" |};
       logged := logged w |}
  else
    {| urls := {| urlCreateCardTokenOTP := "/v1/rt-directdebit/tokens";
                  urlCreateCardTokenOTPVerify := "/v1/rt-directdebit/tokens";
                  urlDeleteCardToken := "/v1/rt-directdebit/tokens";
                  urlCreatePaymentChargeOTP := "/v1/rt-directdebit/charges";
                  urlCreatePaymentChargeOTPVerify := "/v1/rt-directdebit/charges/verify";
                  urlChargeDetail := "/v1/rt-directdebit/charges/inquiry";
                  urlRefundDirectDebit := "/v1/rt-directdebit/refunds" |};
       logged := logged w |}.

(** [NewRequest]: the request, or the error of [http.NewRequest]. *)
Definition NewRequest `{Env} (c : Client) (method fullPath : string)
    (headers : option (gmap string string)) (body : string) (w : World)
  : (http.Request + error) * World :=
  let logLevel := LogLevel c in
  match http_NewRequest method fullPath body with
  | inr err =>
      let w := if bool_decide (logLevel > 0)
               then Println [LStr "Request creation failed: "; LErr err] w
               else w in
      (inr err, w)
  | inl req =>
      let req :=
        match headers with
        | Some headers =>
            foldl (fun req '(k, vv) =>
                     {| http.Method := http.Method req;
                        http.Url := http.Url req;
                        http.Header := http.Header_Set k vv (http.Header req);
                        http.Body := http.Body req |})
                  req (range_order headers)
        | None => req
        end in
      (inl req, w)
  end.

(** What a call of [ExecuteRequest] leaves behind: the error it returns,
    what the two sinks hold, and the world. *)
Record Result (V E : Type) := mkResult {
  returned : option error;
  sink : option V;
  errorSink : option E;
  after : World
}.
Arguments mkResult {V E} _ _ _ _.
Arguments returned {V E} _.
Arguments sink {V E} _.
Arguments errorSink {V E} _.
Arguments after {V E} _.

(** [ExecuteRequest].  The deferred [res.Body.Close()] releases the body
    when the function returns and changes nothing the function returns,
    decodes or logs.  [json.Unmarshal(resBody, &vErr)] is given the address
    of the interface variable; the decoder follows it to the pointer the
    caller passed, so it decodes into the caller's error sink. *)
Definition ExecuteRequest `{Env} {V E : Type} `{!JSON V, !JSON E}
    (c : Client) (req : http.Request) (v : option V) (vErr : option E)
    (w : World) : Result V E :=
  let logLevel := LogLevel c in
  let w := if bool_decide (logLevel > 1)
           then Println [LStr "Request "; LStr (http.Method req); LStr ": ";
                         LStr (http.Host (http.Url req));
                         LStr (http.Path (http.Url req))] w
           else w in
  let start := time_Now in
  let '(res, err) := httpclient_Do (getHTTPClient c) req in
  match err with
  | Some e =>
      let w := if bool_decide (logLevel > 0)
               then Println [LStr "Cannot send request: "; LErr e] w else w in
      mkResult (Some e) v vErr w
  | None =>
      let w := if bool_decide (logLevel > 2)
               then Println [LStr "Completed in "; LDur (time_Since start)] w
               else w in
      match err with
      | Some e =>
          let w := if bool_decide (logLevel > 0)
                   then Println [LStr "Request failed: "; LErr e] w else w in
          mkResult (Some e) v vErr w
      | None =>
          let '(resBody, err) := ioutil.ReadAll (http.ResBody res) in
          match err with
          | Some e =>
              let w := if bool_decide (logLevel > 0)
                       then Println [LStr "Cannot read response body: "; LErr e] w
                       else w in
              mkResult (Some e) v vErr w
          | None =>
              let w := if bool_decide (logLevel > 2)
                       then Println [LStr "BRI body response: "; LStr resBody]
                              (Println [LStr "BRI HTTP status response: ";
                                        LInt (http.StatusCode res)] w)
                       else w in
              if bool_decide (http.StatusCode res = 404) then
                mkResult (Some (errors_New "invalid url")) v vErr w
              else if bool_decide (http.StatusCode res = 204) then
                mkResult (Some (errors_New "204: empty response")) v vErr w
              else
                match v with
                | Some x =>
                    let '(x, err) := json.Unmarshal resBody x in
                    match err with
                    | Some e =>
                        let '(vErr, err) :=
                          match vErr with
                          | Some y =>
                              let '(y, err) := json.Unmarshal resBody y in
                              (Some y, err)
                          | None => (None, Some e)
                          end in
                        if bool_decide (http.StatusCode res = http.StatusOK) then
                          mkResult (Some ErrPendingTransaction) (Some x) vErr w
                        else
                          mkResult err (Some x) vErr w
                    | None => mkResult None (Some x) vErr w
                    end
                | None => mkResult None v vErr w
                end
          end
      end
  end.

(** [ExecuteRequest] with the second test of [err], the one after the
    deferred close, taken out. *)
Definition ExecuteRequest_without_recheck `{Env} {V E : Type} `{!JSON V, !JSON E}
    (c : Client) (req : http.Request) (v : option V) (vErr : option E)
    (w : World) : Result V E :=
  let logLevel := LogLevel c in
  let w := if bool_decide (logLevel > 1)
           then Println [LStr "Request "; LStr (http.Method req); LStr ": ";
                         LStr (http.Host (http.Url req));
                         LStr (http.Path (http.Url req))] w
           else w in
  let start := time_Now in
  let '(res, err) := httpclient_Do (getHTTPClient c) req in
  match err with
  | Some e =>
      let w := if bool_decide (logLevel > 0)
               then Println [LStr "Cannot send request: "; LErr e] w else w in
      mkResult (Some e) v vErr w
  | None =>
      let w := if bool_decide (logLevel > 2)
               then Println [LStr "Completed in "; LDur (time_Since start)] w
               else w in
      let '(resBody, err) := ioutil.ReadAll (http.ResBody res) in
      match err with
      | Some e =>
          let w := if bool_decide (logLevel > 0)
                   then Println [LStr "Cannot read response body: "; LErr e] w
                   else w in
          mkResult (Some e) v vErr w
      | None =>
          let w := if bool_decide (logLevel > 2)
                   then Println [LStr "BRI body response: "; LStr resBody]
                          (Println [LStr "BRI HTTP status response: ";
                                    LInt (http.StatusCode res)] w)
                   else w in
          if bool_decide (http.StatusCode res = 404) then
            mkResult (Some (errors_New "invalid url")) v vErr w
          else if bool_decide (http.StatusCode res = 204) then
            mkResult (Some (errors_New "204: empty response")) v vErr w
          else
            match v with
            | Some x =>
                let '(x, err) := json.Unmarshal resBody x in
                match err with
                | Some e =>
                    let '(vErr, err) :=
                      match vErr with
                      | Some y =>
                          let '(y, err) := json.Unmarshal resBody y in
                          (Some y, err)
                      | None => (None, Some e)
                      end in
                    if bool_decide (http.StatusCode res = http.StatusOK) then
                      mkResult (Some ErrPendingTransaction) (Some x) vErr w
                    else
                      mkResult err (Some x) vErr w
                | None => mkResult None (Some x) vErr w
                end
            | None => mkResult None v vErr w
            end
      end
  end.

(** [Call]. *)
Definition Call `{Env} {V E : Type} `{!JSON V, !JSON E}
    (c : Client) (method path : string) (header : option (gmap string string))
    (body : string) (v : option V) (vErr : option E) (w : World) : Result V E :=
  let '(r, w) := NewRequest c method path header body w in
  match r with
  | inr err => mkResult (Some err) v vErr w
  | inl req => ExecuteRequest c req v vErr w
  end.

(** ** The Direct-Debit operations *)

(** The record types of the operations that the sources use and do not
    declare.  [CardFields] stands for the fields of the card-token request
    body other than [OtpBriStatus]. *)
Class Records := {
  CardFields : Type;
  CardTokenOTPResponse : Type;
  CardTokenOTPVerifyRequest : Type;
  CardTokenOTPVerifyResponse : Type;
  PaymentChargeOTPRequest : Type;
  PaymentChargeOTPResponse : Type;
  PaymentChargeOTPVerifyRequest : Type;
  PaymentChargeOTPVerifyResponse : Type
}.

(** Modelled from the spec: the declaration of [CardTokenOTPRequest] is not
    among the sources.  The request is a record nested under a [Body] field
    (section 3), and [CreateCardTokenOTP] assigns [req.Body.OtpBriStatus]. *)
Record CardTokenOTPRequestBody `{Records} := {
  OtpBriStatus : string;
  cardFields : CardFields
}.

Record CardTokenOTPRequest `{Records} := {
  Body : CardTokenOTPRequestBody
}.

Module CoreGateway.
(** The receiver of the operations; the sources use its field [Client]. *)
Record t := { Client : Client }.
End CoreGateway.

(** What the operations take from the rest of the package and from outside:
    the time format, the clock reading [getTimestamp] formats, the signer,
    the codecs and zero values of the records, and the method [Call] of the
    gateway. *)
Class Gateway `{Records} := {
  BRI_TIME_FORMAT : string;
  getTimestamp : string -> string;
  generateSignature : string -> string -> string -> string -> string -> string -> string;
  CardTokenOTPRequest_JSON :: JSON CardTokenOTPRequest;
  CardTokenOTPVerifyRequest_JSON :: JSON CardTokenOTPVerifyRequest;
  PaymentChargeOTPRequest_JSON :: JSON PaymentChargeOTPRequest;
  PaymentChargeOTPVerifyRequest_JSON :: JSON PaymentChargeOTPVerifyRequest;
  CardTokenOTPResponse_JSON :: JSON CardTokenOTPResponse;
  CardTokenOTPVerifyResponse_JSON :: JSON CardTokenOTPVerifyResponse;
  PaymentChargeOTPResponse_JSON :: JSON PaymentChargeOTPResponse;
  PaymentChargeOTPVerifyResponse_JSON :: JSON PaymentChargeOTPVerifyResponse;
  CardTokenOTPResponse_Zero :: Zero CardTokenOTPResponse;
  CardTokenOTPVerifyResponse_Zero :: Zero CardTokenOTPVerifyResponse;
  PaymentChargeOTPResponse_Zero :: Zero PaymentChargeOTPResponse;
  PaymentChargeOTPVerifyResponse_Zero :: Zero PaymentChargeOTPVerifyResponse;
  (** [g.Call(method, path, headers, body, &res)]: what [res] holds
      afterwards, the error, and the world *)
  gateway_Call : forall {V : Type} `{!JSON V},
    CoreGateway.t -> string -> string -> option (gmap string string) ->
    string -> V -> World -> (V * option error) * World
}.

(** The endpoint variables as [direct_debit.go] initialises them; the three
    it does not declare are taken as given. *)
Definition initial_urls (deleteCardToken chargeDetail refundDirectDebit : string)
  : Endpoints :=
  {| urlCreateCardTokenOTP := "/v1/directdebit/tokens";
     urlCreateCardTokenOTPVerify := "/v1/directdebit/tokens";
     urlDeleteCardToken := deleteCardToken;
     urlCreatePaymentChargeOTP := "/v1/directdebit/charges";
     urlCreatePaymentChargeOTPVerify := "/v1/directdebit/charges/verify";
     urlChargeDetail := chargeDetail;
     urlRefundDirectDebit := refundDirectDebit |}.

Section Operations.
Context `{Gateway}.

Definition CreateCardTokenOTP (g : CoreGateway.t) (token : string)
    (req : CardTokenOTPRequest) (w : World)
  : (CardTokenOTPResponse * option error) * World :=
  let res : CardTokenOTPResponse := zero in
  let req := {| Body := {| OtpBriStatus := "YES";
                           cardFields := cardFields (Body req) |} |} in
  let token := "Bearer " +:+ token in
  let method := http.MethodPost in
  let '(body, err) := json.Marshal req in
  let timestamp := getTimestamp BRI_TIME_FORMAT in
  let signature :=
    generateSignature (urlCreateCardTokenOTP (urls w)) method token timestamp
                      body (ClientSecret (CoreGateway.Client g)) in
  let headers : gmap string string :=
    {[ "Authorization" := token;
       "BRI-Timestamp" := timestamp;
       "BRI-Signature" := signature;
       "Content-Type" := "application/json" ]} in
  gateway_Call g method (urlCreateCardTokenOTP (urls w)) (Some headers) body res w.

Definition CreateCardTokenOTPVerify (g : CoreGateway.t) (token : string)
    (req : CardTokenOTPVerifyRequest) (w : World)
  : (CardTokenOTPVerifyResponse * option error) * World :=
  let res : CardTokenOTPVerifyResponse := zero in
  let token := "Bearer " +:+ token in
  let method := http.MethodPatch in
  let '(body, err) := json.Marshal req in
  let timestamp := getTimestamp BRI_TIME_FORMAT in
  let signature :=
    generateSignature (urlCreateCardTokenOTPVerify (urls w)) method token
                      timestamp body (ClientSecret (CoreGateway.Client g)) in
  let headers : gmap string string :=
    {[ "Authorization" := token;
       "BRI-Timestamp" := timestamp;
       "BRI-Signature" := signature;
       "Content-Type" := "application/json" ]} in
  gateway_Call g method (urlCreateCardTokenOTPVerify (urls w)) (Some headers) body res w.

Definition CreatePaymentChargeOTP (g : CoreGateway.t) (token : string)
    (req : PaymentChargeOTPRequest) (w : World)
  : (PaymentChargeOTPResponse * option error) * World :=
  let res : PaymentChargeOTPResponse := zero in
  let token := "Bearer " +:+ token in
  let method := http.MethodPost in
  let '(body, err) := json.Marshal req in
  let timestamp := getTimestamp BRI_TIME_FORMAT in
  let signature :=
    generateSignature (urlCreatePaymentChargeOTP (urls w)) method token
                      timestamp body (ClientSecret (CoreGateway.Client g)) in
  let headers : gmap string string :=
    {[ "Authorization" := token;
       "BRI-Timestamp" := timestamp;
       "BRI-Signature" := signature;
       "Content-Type" := "application/json" ]} in
  gateway_Call g method (urlCreatePaymentChargeOTP (urls w)) (Some headers) body res w.

Definition CreatePaymentChargeOTPVerify (g : CoreGateway.t) (token : string)
    (req : PaymentChargeOTPVerifyRequest) (w : World)
  : (PaymentChargeOTPVerifyResponse * option error) * World :=
  let res : PaymentChargeOTPVerifyResponse := zero in
  let token := "Bearer " +:+ token in
  let method := http.MethodPost in
  let '(body, err) := json.Marshal req in
  let timestamp := getTimestamp BRI_TIME_FORMAT in
  let signature :=
    generateSignature (urlCreatePaymentChargeOTPVerify (urls w)) method token
                      timestamp body (ClientSecret (CoreGateway.Client g)) in
  let headers : gmap string string :=
    {[ "Authorization" := token;
       "BRI-Timestamp" := timestamp;
       "BRI-Signature" := signature;
       "Content-Type" := "application/json" ]} in
  gateway_Call g method (urlCreatePaymentChargeOTPVerify (urls w)) (Some headers) body res w.

End Operations.

(** ** The operation catalogue *)

(** The four operations of [direct_debit.go], with the method and the
    endpoint variable the specification's catalogue gives each. *)
Inductive Operation : Type :=
| OpCreateCardTokenOTP
| OpCreateCardTokenOTPVerify
| OpCreatePaymentChargeOTP
| OpCreatePaymentChargeOTPVerify.

Definition verb (op : Operation) : string :=
  match op with
  | OpCreateCardTokenOTP => "POST"
  | OpCreateCardTokenOTPVerify => "PATCH"
  | OpCreatePaymentChargeOTP => "POST"
  | OpCreatePaymentChargeOTPVerify => "POST"
  end.

Definition endpoint (op : Operation) (e : Endpoints) : string :=
  match op with
  | OpCreateCardTokenOTP => urlCreateCardTokenOTP e
  | OpCreateCardTokenOTPVerify => urlCreateCardTokenOTPVerify e
  | OpCreatePaymentChargeOTP => urlCreatePaymentChargeOTP e
  | OpCreatePaymentChargeOTPVerify => urlCreatePaymentChargeOTPVerify e
  end.

(** The seven endpoint variables, in the order of their assignment. *)
Definition all_urls (e : Endpoints) : list string :=
  [ urlCreateCardTokenOTP e; urlCreateCardTokenOTPVerify e; urlDeleteCardToken e;
    urlCreatePaymentChargeOTP e; urlCreatePaymentChargeOTPVerify e;
    urlChargeDetail e; urlRefundDirectDebit e ].

Definition sandboxPrefix : string := "/sandbox/v1/directdebit/".
Definition productionPrefix : string := "/v1/rt-directdebit/".

(** [strings.HasPrefix s prefix]. *)
Definition HasPrefix (s prefix : string) : bool := String.prefix prefix s.

Section Catalogue.
Context `{Gateway}.

Definition RequestOf (op : Operation) : Type :=
  match op with
  | OpCreateCardTokenOTP => CardTokenOTPRequest
  | OpCreateCardTokenOTPVerify => CardTokenOTPVerifyRequest
  | OpCreatePaymentChargeOTP => PaymentChargeOTPRequest
  | OpCreatePaymentChargeOTPVerify => PaymentChargeOTPVerifyRequest
  end.

Definition ResponseOf (op : Operation) : Type :=
  match op with
  | OpCreateCardTokenOTP => CardTokenOTPResponse
  | OpCreateCardTokenOTPVerify => CardTokenOTPVerifyResponse
  | OpCreatePaymentChargeOTP => PaymentChargeOTPResponse
  | OpCreatePaymentChargeOTPVerify => PaymentChargeOTPVerifyResponse
  end.

#[export] Instance RequestOf_JSON (op : Operation) : JSON (RequestOf op) :=
  match op with
  | OpCreateCardTokenOTP => CardTokenOTPRequest_JSON
  | OpCreateCardTokenOTPVerify => CardTokenOTPVerifyRequest_JSON
  | OpCreatePaymentChargeOTP => PaymentChargeOTPRequest_JSON
  | OpCreatePaymentChargeOTPVerify => PaymentChargeOTPVerifyRequest_JSON
  end.

#[export] Instance ResponseOf_JSON (op : Operation) : JSON (ResponseOf op) :=
  match op with
  | OpCreateCardTokenOTP => CardTokenOTPResponse_JSON
  | OpCreateCardTokenOTPVerify => CardTokenOTPVerifyResponse_JSON
  | OpCreatePaymentChargeOTP => PaymentChargeOTPResponse_JSON
  | OpCreatePaymentChargeOTPVerify => PaymentChargeOTPVerifyResponse_JSON
  end.

#[export] Instance ResponseOf_Zero (op : Operation) : Zero (ResponseOf op) :=
  match op with
  | OpCreateCardTokenOTP => CardTokenOTPResponse_Zero
  | OpCreateCardTokenOTPVerify => CardTokenOTPVerifyResponse_Zero
  | OpCreatePaymentChargeOTP => PaymentChargeOTPResponse_Zero
  | OpCreatePaymentChargeOTPVerify => PaymentChargeOTPVerifyResponse_Zero
  end.

(** Running an operation of the catalogue is calling its function. *)
Definition perform (op : Operation)
  : CoreGateway.t -> string -> RequestOf op -> World ->
    (ResponseOf op * option error) * World :=
  match op with
  | OpCreateCardTokenOTP => CreateCardTokenOTP
  | OpCreateCardTokenOTPVerify => CreateCardTokenOTPVerify
  | OpCreatePaymentChargeOTP => CreatePaymentChargeOTP
  | OpCreatePaymentChargeOTPVerify => CreatePaymentChargeOTPVerify
  end.

(** The record an operation serialises: the caller's, except that
    [CreateCardTokenOTP] has assigned [OtpBriStatus] first. *)
Definition serialised (op : Operation) : RequestOf op -> RequestOf op :=
  match op with
  | OpCreateCardTokenOTP => fun req =>
      {| Body := {| OtpBriStatus := "YES"; cardFields := cardFields (Body req) |} |}
  | _ => fun req => req
  end.

(** [sends op g token req w method path headers body]: running the
    operation in the world [w] is one call of [g.Call], with these
    arguments and the zero response as the success sink. *)
Definition sends (op : Operation) (g : CoreGateway.t) (token : string)
    (req : RequestOf op) (w : World)
    (method path : string) (headers : gmap string string) (body : string) : Prop :=
  perform op g token req w = gateway_Call g method path (Some headers) body zero w.

(** The four standard headers of the specification (section 6). *)
Definition standardHeaders (token timestamp signature : string) : gmap string string :=
  {[ "Authorization" := "Bearer " +:+ token;
     "BRI-Timestamp" := timestamp;
     "BRI-Signature" := signature;
     "Content-Type" := "application/json" ]}.

(** An entry of a [map[string]string] as [Header.Set] stores it. *)
Definition stored (kv : string * string) : string * list string :=
  (textproto.CanonicalMIMEHeaderKey kv.1, [kv.2]).

(** The header of a request that carries the four standard headers, under
    the canonical spelling [Header.Set] gives the keys. *)
Definition wireHeader (token timestamp signature : string) : gmap string (list string) :=
  {[ "Authorization" := ["Bearer " +:+ token];
     "Bri-Timestamp" := [timestamp];
     "Bri-Signature" := [signature];
     "Content-Type" := ["application/json"] ]}.

(** The names of the four standard headers. *)
Definition standardHeaderNames : gset string :=
  {[ "Authorization"; "BRI-Timestamp"; "BRI-Signature"; "Content-Type" ]}.

End Catalogue.

(** ** Test doubles *)

(** A fake transport, fake codecs and a fake signer, to run the functions
    on concrete requests and responses. *)
Module Fake.

Definition parseURL (url : string) : http.URL + error :=
  inl {| http.Host := "bri.test"; http.Path := url |}.

(** An environment whose HTTP client answers every request with [res] and
    [err], and whose [range] visits a map in the order of its listing. *)
Definition transport (res : http.Response) (err : option error) : Env :=
  {| ErrPendingTransaction := errorString "pending transaction";
     time_Now := 0;
     time_Since := fun _ => 1500000;
     httpclient_Do := fun _ _ => (res, err);
     url_Parse := parseURL;
     range_order := map_to_list;
     range_order_perm := fun m => Permutation_refl (map_to_list m) |}.

Definition response (status : Z) (body : string) : http.Response :=
  {| http.StatusCode := status;
     http.ResBody := {| http.content := body; http.failure := None |} |}.

(** A response whose body breaks off while it is read. *)
Definition brokenResponse (status : Z) (body : string) : http.Response :=
  {| http.StatusCode := status;
     http.ResBody := {| http.content := body;
                        http.failure := Some (foreignError "unexpected EOF") |} |}.

Record CardToken := { status : string; cardToken : string }.
Record RemoteError := { errorCode : string; errorDesc : string }.

(** A codec that decodes exactly the bodies [accepts] knows. *)
Definition codec {T : Type} (accepts : string -> option T) (show : T -> string + error)
  : JSON T :=
  {| encode := show;
     decode := fun data x =>
       match accepts data with
       | Some y => (y, None)
       | None => (x, Some (foreignError "json: cannot unmarshal"))
       end |}.

(** [quoted s] is [s] between double quotes. *)
Definition quoted (s : string) : string :=
  String (ascii_of_nat 34) (s +:+ String (ascii_of_nat 34) "").

(** A body whose [status] is a number: the success record, which declares
    [status] a string, refuses it; the error record has no such field. *)
Definition errorBody : string :=
  "{" +:+ quoted "status" +:+ ":400," +:+ quoted "errorCode" +:+ ":"
      +:+ quoted "E01" +:+ "," +:+ quoted "errorDesc" +:+ ":" +:+ quoted "bad pan"
      +:+ "}".

Definition tokenBody : string :=
  "{" +:+ quoted "status" +:+ ":" +:+ quoted "success" +:+ ","
      +:+ quoted "cardToken" +:+ ":" +:+ quoted "abc" +:+ "}".

(** A body that is no JSON document. *)
Definition pendingBody : string := "Transaction is being processed".

Definition CardToken_JSON : JSON CardToken :=
  codec (fun data => if String.eqb data tokenBody
                     then Some {| status := "success"; cardToken := "abc" |}
                     else None)
        (fun _ => inl tokenBody).

Definition RemoteError_JSON : JSON RemoteError :=
  codec (fun data => if String.eqb data errorBody
                     then Some {| errorCode := "E01"; errorDesc := "bad pan" |}
                     else None)
        (fun _ => inl errorBody).

Definition emptyToken : CardToken := {| status := ""; cardToken := "" |}.
Definition emptyError : RemoteError := {| errorCode := ""; errorDesc := "" |}.

Definition client : Client :=
  {| BaseUrl := "https://bri.test"; DirectDebitBaseURL := "https://bri.test";
     ClientId := "id"; ClientSecret := "s"; APIKey := "key";
     LogLevel := 3; Timeout := 3 * time.Minute; IsProduction := false |}.

Definition request : http.Request :=
  {| http.Method := "POST";
     http.Url := {| http.Host := "bri.test"; http.Path := "/v1/directdebit/tokens" |};
     http.Header := ∅;
     http.Body := "{}" |}.

Definition world : World :=
  {| urls := initial_urls "/v1/directdebit/tokens" "/v1/directdebit/charges/inquiry"
                          "/v1/directdebit/refunds";
     logged := [] |}.

(** Request records: a card number, or an amount that is absent when it is
    a value the encoder refuses. *)
Definition records : Records :=
  {| CardFields := string;
     CardTokenOTPResponse := CardToken;
     CardTokenOTPVerifyRequest := string;
     CardTokenOTPVerifyResponse := CardToken;
     PaymentChargeOTPRequest := option Z;
     PaymentChargeOTPResponse := CardToken;
     PaymentChargeOTPVerifyRequest := string;
     PaymentChargeOTPVerifyResponse := CardToken |}.

Definition text_JSON : JSON string :=
  codec (fun data => Some data) (fun s => inl s).

Definition amount_JSON : JSON (option Z) :=
  codec (fun _ => None)
        (fun a => match a with
                  | Some _ => inl "{amount:1}"
                  | None => inr (foreignError "json: unsupported value: NaN")
                  end).

Definition cardRequest_JSON : JSON (@CardTokenOTPRequest records) :=
  codec (fun _ => None)
        (fun r => inl ("{otpBriStatus:" +:+ @OtpBriStatus records (Body r)
                       +:+ ",cardPan:" +:+ @cardFields records (Body r) +:+ "}")).

Definition sign (path method token timestamp body secret : string) : string :=
  path +:+ ":" +:+ method +:+ ":" +:+ token +:+ ":" +:+ timestamp +:+ ":"
       +:+ body +:+ ":" +:+ secret.

(** A gateway over the transport: [Call] of the gateway hands the request
    to [Call] of the client under the direct-debit base URL, without an
    error sink. *)
Definition gateway (res : http.Response) (err : option error) : @Gateway records :=
  {| BRI_TIME_FORMAT := "20060102150405";
     getTimestamp := fun _ => "20210101000000";
     generateSignature := sign;
     CardTokenOTPRequest_JSON := cardRequest_JSON;
     CardTokenOTPVerifyRequest_JSON := text_JSON;
     PaymentChargeOTPRequest_JSON := amount_JSON;
     PaymentChargeOTPVerifyRequest_JSON := text_JSON;
     CardTokenOTPResponse_JSON := CardToken_JSON;
     CardTokenOTPVerifyResponse_JSON := CardToken_JSON;
     PaymentChargeOTPResponse_JSON := CardToken_JSON;
     PaymentChargeOTPVerifyResponse_JSON := CardToken_JSON;
     CardTokenOTPResponse_Zero := emptyToken;
     CardTokenOTPVerifyResponse_Zero := emptyToken;
     PaymentChargeOTPResponse_Zero := emptyToken;
     PaymentChargeOTPVerifyResponse_Zero := emptyToken;
     gateway_Call := fun V _ g method path headers body v w =>
       let r := @Call (transport res err) V RemoteError _ RemoteError_JSON
                      (CoreGateway.Client g) method
                      (DirectDebitBaseURL (CoreGateway.Client g) +:+ path)
                      headers body (Some v) None w in
       (default v (sink r), returned r, after r) |}.

Definition coreGateway : CoreGateway.t := {| CoreGateway.Client := client |}.

(** A card-token request whose caller asked for no OTP. *)
Definition cardRequest : @CardTokenOTPRequest records :=
  @Build_CardTokenOTPRequest records
    (@Build_CardTokenOTPRequestBody records "NO" "4111111111111111").

(** The transport and the gateway of a remote that answers 200 with a card
    token. *)
Definition tokenTransport : Env := transport (response 200 tokenBody) None.
Definition tokenGateway : @Gateway records := gateway (response 200 tokenBody) None.

End Fake.

(** Further test doubles: clients at the other log levels, a transport that
    cannot connect, a body that is no JSON document, and a map of headers
    with two spellings of one name. *)
Module Sample.

Definition clientAt (level : Z) : Client :=
  {| BaseUrl := "https://bri.test"; DirectDebitBaseURL := "https://bri.test";
     ClientId := "id"; ClientSecret := "s"; APIKey := "key";
     LogLevel := level; Timeout := 3 * time.Minute; IsProduction := false |}.


Definition refused : error := foreignError "dial tcp: connection refused".

Definition down : Env := Fake.transport (Fake.response 0 "") (Some refused).

Definition serverError : string := "Internal Server Error".

Definition clashing : gmap string string :=
  {[ "content-type" := "text/plain"; "Content-Type" := "application/json" ]}.

End Sample.

(** * Properties *)

(** ** The transport *)

Section Transport.
Context `{Env} {V E : Type} `{!JSON V, !JSON E}.
Implicit Types (c : Client) (req : http.Request) (v : option V) (vErr : option E)
  (w : World).

(** Run [ExecuteRequest] up to the status tests, on a response [HDo] that
    arrived and a body [HRead] that was read. *)
Ltac run_to_status HDo HRead :=
  unfold ExecuteRequest; rewrite HDo, HRead.

Lemma ExecuteRequest_send_failed c req v vErr w res e :
  httpclient_Do (getHTTPClient c) req = (res, Some e) ->
  ExecuteRequest c req v vErr w
  = mkResult (Some e) v vErr
      (let w := if bool_decide (LogLevel c > 1)
                then Println [LStr "Request "; LStr (http.Method req); LStr ": ";
                              LStr (http.Host (http.Url req));
                              LStr (http.Path (http.Url req))] w
                else w in
       if bool_decide (LogLevel c > 0)
       then Println [LStr "Cannot send request: "; LErr e] w else w).
Proof. intros HDo. unfold ExecuteRequest. rewrite HDo. reflexivity. Qed.

(** What the function returns once a response has arrived and its body has
    been read: the part from the status tests on. *)
Lemma ExecuteRequest_returned c req v vErr w res resBody :
  httpclient_Do (getHTTPClient c) req = (res, None) ->
  ioutil.ReadAll (http.ResBody res) = (resBody, None) ->
  returned (ExecuteRequest c req v vErr w)
  = if bool_decide (http.StatusCode res = 404) then Some (errors_New "invalid url")
    else if bool_decide (http.StatusCode res = 204)
         then Some (errors_New "204: empty response")
    else match v with
         | None => None
         | Some x =>
             match (json.Unmarshal resBody x).2 with
             | None => None
             | Some e =>
                 if bool_decide (http.StatusCode res = http.StatusOK)
                 then Some ErrPendingTransaction
                 else match vErr with
                      | None => Some e
                      | Some y => (json.Unmarshal resBody y).2
                      end
             end
         end.
Proof.
  intros HDo HRead. run_to_status HDo HRead.
  repeat case_bool_decide; try reflexivity.
  all: destruct v as [x|]; try reflexivity.
  all: destruct (json.Unmarshal resBody x) as [x' [e|]]; try reflexivity.
  all: destruct vErr as [y|]; try reflexivity.
  all: destruct (json.Unmarshal resBody y) as [y' err]; reflexivity.
Qed.

(** What the error sink holds after the success decoding has failed: the
    body decoded into it. *)
Lemma ExecuteRequest_errorSink c req (x : V) (y : E) w res resBody e :
  httpclient_Do (getHTTPClient c) req = (res, None) ->
  ioutil.ReadAll (http.ResBody res) = (resBody, None) ->
  http.StatusCode res <> 404 -> http.StatusCode res <> 204 ->
  (json.Unmarshal resBody x).2 = Some e ->
  errorSink (ExecuteRequest c req (Some x) (Some y) w)
  = Some (json.Unmarshal resBody y).1.
Proof.
  intros HDo HRead H404 H204 Hdec. run_to_status HDo HRead.
  rewrite !bool_decide_eq_false_2 by assumption.
  destruct (json.Unmarshal resBody x) as [x' err]; simpl in Hdec; subst err.
  destruct (json.Unmarshal resBody y) as [y' err].
  case_bool_decide; reflexivity.
Qed.

(** When the status is not 200 and the body decodes into the error sink,
    the error of the success decoding is lost: the function returns nil. *)
Lemma ExecuteRequest_error_payload_returns_nil c req (x : V) (y : E) w res resBody e :
  httpclient_Do (getHTTPClient c) req = (res, None) ->
  ioutil.ReadAll (http.ResBody res) = (resBody, None) ->
  http.StatusCode res <> 404 -> http.StatusCode res <> 204 ->
  http.StatusCode res <> http.StatusOK ->
  (json.Unmarshal resBody x).2 = Some e ->
  (json.Unmarshal resBody y).2 = None ->
  returned (ExecuteRequest c req (Some x) (Some y) w) = None.
Proof.
  intros HDo HRead H404 H204 H200 Hx Hy.
  rewrite (ExecuteRequest_returned _ _ _ _ _ _ _ HDo HRead).
  rewrite !bool_decide_eq_false_2 by assumption.
  rewrite Hx. exact Hy.
Qed.

(** C2.  When the response has status 200 and decoding its body into the
    success sink fails, [ExecuteRequest] returns [ErrPendingTransaction],
    whatever the error sink is and whatever decoding into it gives. *)
Theorem ExecuteRequest_pending_transaction c req (x : V) vErr w res resBody e :
  httpclient_Do (getHTTPClient c) req = (res, None) ->
  http.StatusCode res = 200 ->
  ioutil.ReadAll (http.ResBody res) = (resBody, None) ->
  (json.Unmarshal resBody x).2 = Some e ->
  returned (ExecuteRequest c req (Some x) vErr w) = Some ErrPendingTransaction.
Proof.
  intros HDo H200 HRead Hdec.
  rewrite (ExecuteRequest_returned _ _ _ _ _ _ _ HDo HRead), Hdec, H200.
  reflexivity.
Qed.

(** The lines a call adds to the log. *)
Lemma ExecuteRequest_never_logs_request_failed c req v vErr w :
  Forall (fun line => head line <> Some (LStr "Request failed: "))
         (drop (length (logged w)) (logged (after (ExecuteRequest c req v vErr w)))).
Proof.
  unfold ExecuteRequest.
  destruct (httpclient_Do (getHTTPClient c) req) as [res [e|]].
  2: destruct (ioutil.ReadAll (http.ResBody res)) as [resBody [e|]].
  3: destruct v as [x|]; [destruct (json.Unmarshal resBody x) as [x' [e|]];
       [destruct vErr as [y|]; [destruct (json.Unmarshal resBody y) as [y' err]|]|]|].
  all: repeat case_bool_decide; simpl;
    rewrite <- ?app_assoc, ?drop_app_length, ?drop_all;
    repeat constructor; discriminate.
Qed.

(** C10.  The test of [err] that follows the deferred close never fires:
    taking it out gives the same function (the same error, the same sinks,
    the same log lines) on every input; whenever the HTTP client gives a
    non-nil error the function returns it, at the first test; and no call
    writes the line of the second test to the log. *)
Theorem ExecuteRequest_recheck_redundant c req v vErr w :
  ExecuteRequest c req v vErr w = ExecuteRequest_without_recheck c req v vErr w
  /\ match (httpclient_Do (getHTTPClient c) req).2 with
     | Some e => returned (ExecuteRequest c req v vErr w) = Some e
     | None => True
     end
  /\ Forall (fun line => head line <> Some (LStr "Request failed: "))
            (drop (length (logged w)) (logged (after (ExecuteRequest c req v vErr w)))).
Proof.
  split; [|split].
  - unfold ExecuteRequest, ExecuteRequest_without_recheck.
    destruct (httpclient_Do (getHTTPClient c) req) as [res [e|]]; reflexivity.
  - destruct (httpclient_Do (getHTTPClient c) req) as [res [e|]] eqn:HDo; [|exact I].
    simpl. rewrite (ExecuteRequest_send_failed _ _ _ _ _ _ _ HDo). reflexivity.
  - apply ExecuteRequest_never_logs_request_failed.
Qed.

(** C5, as amended.  When the response has status 404 and its body has been
    read without an error, [ExecuteRequest] returns an error whose message
    is "invalid url"; the two sinks hold what they held, and the codecs have
    no part in the result: any two pairs of codecs give the same result. *)
Theorem ExecuteRequest_invalid_url c req v vErr w res resBody :
  httpclient_Do (getHTTPClient c) req = (res, None) ->
  http.StatusCode res = 404 ->
  ioutil.ReadAll (http.ResBody res) = (resBody, None) ->
  (exists e, returned (ExecuteRequest c req v vErr w) = Some e
             /\ Error e = "invalid url")
  /\ sink (ExecuteRequest c req v vErr w) = v
  /\ errorSink (ExecuteRequest c req v vErr w) = vErr
  /\ forall (JV JV' : JSON V) (JE JE' : JSON E),
       @ExecuteRequest _ V E JV JE c req v vErr w
       = @ExecuteRequest _ V E JV' JE' c req v vErr w.
Proof.
  intros HDo H404 HRead.
  split; [|split; [|split]].
  - exists (errors_New "invalid url"). split; [|reflexivity].
    rewrite (ExecuteRequest_returned _ _ _ _ _ _ _ HDo HRead).
    rewrite (bool_decide_eq_true_2 _ H404). reflexivity.
  - run_to_status HDo HRead.
    rewrite (bool_decide_eq_true_2 _ H404). reflexivity.
  - run_to_status HDo HRead.
    rewrite (bool_decide_eq_true_2 _ H404). reflexivity.
  - intros JV JV' JE JE'. run_to_status HDo HRead.
    rewrite (bool_decide_eq_true_2 _ H404). reflexivity.
Qed.

End Transport.

(** *** The transport on the fake *)

(** C2 at a response 200 whose body is no JSON document. *)
Lemma ExecuteRequest_pending_transaction_witness :
  returned (@ExecuteRequest (Fake.transport (Fake.response 200 Fake.pendingBody) None)
              _ _ Fake.CardToken_JSON Fake.RemoteError_JSON
              Fake.client Fake.request (Some Fake.emptyToken) (Some Fake.emptyError)
              Fake.world)
  = Some (errorString "pending transaction").
Proof.
  apply (@ExecuteRequest_pending_transaction
           (Fake.transport (Fake.response 200 Fake.pendingBody) None)
           _ _ Fake.CardToken_JSON Fake.RemoteError_JSON
           Fake.client Fake.request Fake.emptyToken (Some Fake.emptyError) Fake.world
           (Fake.response 200 Fake.pendingBody) Fake.pendingBody
           (foreignError "json: cannot unmarshal")).
  - reflexivity.
  - reflexivity.
  - reflexivity.
  - vm_compute. reflexivity.
Defined.

(** C5 as amended, at a response 404 with a body. *)
Lemma ExecuteRequest_invalid_url_witness :
  exists e,
    returned (@ExecuteRequest (Fake.transport (Fake.response 404 "Not Found") None)
                _ _ Fake.CardToken_JSON Fake.RemoteError_JSON
                Fake.client Fake.request (Some Fake.emptyToken) (Some Fake.emptyError)
                Fake.world) = Some e
    /\ Error e = "invalid url".
Proof.
  apply (@ExecuteRequest_invalid_url
           (Fake.transport (Fake.response 404 "Not Found") None)
           _ _ Fake.CardToken_JSON Fake.RemoteError_JSON
           Fake.client Fake.request (Some Fake.emptyToken) (Some Fake.emptyError)
           Fake.world (Fake.response 404 "Not Found") "Not Found").
  - reflexivity.
  - reflexivity.
  - reflexivity.
Defined.

(** C5 without the condition on the body does not hold: the response has
    status 404, its body breaks off while it is read, and [ExecuteRequest]
    returns the error of the read, whose message is not "invalid url". *)
Lemma ExecuteRequest_status_404_read_error :
  let res := Fake.brokenResponse 404 "Not Fo" in
  let r := @ExecuteRequest (Fake.transport res None)
             _ _ Fake.CardToken_JSON Fake.RemoteError_JSON
             Fake.client Fake.request (Some Fake.emptyToken) (Some Fake.emptyError)
             Fake.world in
  http.StatusCode res = 404
  /\ returned r = Some (foreignError "unexpected EOF")
  /\ ~ (exists e, returned r = Some e /\ Error e = "invalid url").
Proof.
  split; [reflexivity|]. split; [reflexivity|].
  intros [e [Hret Hmsg]]. vm_compute in Hret. inversion Hret; subst e.
  discriminate Hmsg.
Qed.

(** C1.  A response 400 whose body the success record refuses and the error
    record accepts: the body is decoded into the error sink, and
    [ExecuteRequest] returns nil. *)
Theorem ExecuteRequest_error_payload_at_400 :
  let r := @ExecuteRequest (Fake.transport (Fake.response 400 Fake.errorBody) None)
             _ _ Fake.CardToken_JSON Fake.RemoteError_JSON
             Fake.client Fake.request (Some Fake.emptyToken) (Some Fake.emptyError)
             Fake.world in
  (@json.Unmarshal _ Fake.CardToken_JSON Fake.errorBody Fake.emptyToken).2
    = Some (foreignError "json: cannot unmarshal")
  /\ errorSink r = Some {| Fake.errorCode := "E01"; Fake.errorDesc := "bad pan" |}
  /\ returned r = None.
Proof. vm_compute. repeat split. Qed.

(** ** Attaching headers *)

Section Headers.
Context `{Env}.

Lemma range_sets_header (kvs : list (string * string)) (req : http.Request) :
  foldl (fun req '(k, vv) =>
           {| http.Method := http.Method req;
              http.Url := http.Url req;
              http.Header := http.Header_Set k vv (http.Header req);
              http.Body := http.Body req |}) req kvs
  = {| http.Method := http.Method req;
       http.Url := http.Url req;
       http.Header := list_to_map (rev (stored <$> kvs)) ∪ http.Header req;
       http.Body := http.Body req |}.
Proof.
  revert req. induction kvs as [|[k vv] kvs IH]; intros req; simpl.
  - rewrite (left_id_L ∅ (∪)). by destruct req.
  - rewrite IH. simpl. f_equal.
    rewrite list_to_map_app. simpl. unfold http.Header_Set, stored. simpl.
    rewrite <- (assoc_L (∪)). f_equal.
    rewrite insert_empty. by rewrite <- insert_union_singleton_l.
Qed.

(** When no two keys of the map share a canonical spelling, the order of
    the visit does not show in the header. *)
Lemma range_order_irrelevant (headers : gmap string string) (kvs : list (string * string)) :
  map_to_list headers ≡ₚ kvs ->
  NoDup (stored <$> kvs).*1 ->
  list_to_map (rev (stored <$> range_order headers))
  = (list_to_map (stored <$> kvs) : gmap string (list string)).
Proof.
  intros Hperm Hnodup.
  apply list_to_map_proper.
  - by rewrite <- Permutation_rev, (range_order_perm headers), Hperm.
  - by rewrite <- Permutation_rev, (range_order_perm headers), Hperm.
Qed.

Lemma standardHeaders_listing (token timestamp signature : string) :
  map_to_list (standardHeaders token timestamp signature)
  ≡ₚ [ ("Authorization", "Bearer " +:+ token); ("BRI-Timestamp", timestamp);
       ("BRI-Signature", signature); ("Content-Type", "application/json") ].
Proof.
  unfold standardHeaders.
  rewrite !map_to_list_insert, map_to_list_singleton; [done|..];
    by simplify_map_eq.
Qed.

(** [NewRequest] on the four standard headers: the request of
    [http.NewRequest] with the four headers set, or its error. *)
Lemma NewRequest_standardHeaders c method fullPath token timestamp signature body w :
  NewRequest c method fullPath (Some (standardHeaders token timestamp signature)) body w
  = match http_NewRequest method fullPath body with
    | inl req =>
        (inl {| http.Method := http.Method req;
                http.Url := http.Url req;
                http.Header := wireHeader token timestamp signature;
                http.Body := body |}, w)
    | inr err =>
        (inr err,
         if bool_decide (LogLevel c > 0)
         then Println [LStr "Request creation failed: "; LErr err] w else w)
    end.
Proof.
  unfold NewRequest.
  destruct (http_NewRequest method fullPath body) as [req|err] eqn:Hnew; [|done].
  rewrite range_sets_header.
  rewrite (range_order_irrelevant _ _ (standardHeaders_listing token timestamp signature)).
  - unfold http_NewRequest in Hnew.
    destruct (negb _); [done|]. destruct (url_Parse fullPath); [|done].
    injection Hnew as <-. simpl. rewrite (right_id_L ∅ (∪)). reflexivity.
  - apply (bool_decide_unpack _). vm_compute. exact I.
Qed.

End Headers.

(** ** The operations *)

Section Facade.
Context `{Gateway}.
Implicit Types (g : CoreGateway.t) (token : string) (w : World) (op : Operation).

(** Every operation is one call of [g.Call]: with its method and its
    endpoint path, the four standard headers, and the serialised record as
    the body; the signature is computed over the same path, method,
    authorization, timestamp and body. *)
Lemma perform_sends op g token (req : RequestOf op) w :
  let path := endpoint op (urls w) in
  let method := verb op in
  let timestamp := getTimestamp BRI_TIME_FORMAT in
  let body := (json.Marshal (serialised op req)).1 in
  let signature :=
    generateSignature path method ("Bearer " +:+ token) timestamp body
                      (ClientSecret (CoreGateway.Client g)) in
  sends op g token req w method path (standardHeaders token timestamp signature) body.
Proof.
  unfold sends. destruct op; simpl;
    unfold CreateCardTokenOTP, CreateCardTokenOTPVerify, CreatePaymentChargeOTP,
           CreatePaymentChargeOTPVerify, json.Marshal;
    simpl; destruct (encode _); reflexivity.
Qed.

Lemma standardHeaders_lookup token timestamp signature :
  standardHeaders token timestamp signature !! "Authorization" = Some ("Bearer " +:+ token)
  /\ standardHeaders token timestamp signature !! "BRI-Timestamp" = Some timestamp
  /\ standardHeaders token timestamp signature !! "BRI-Signature" = Some signature
  /\ standardHeaders token timestamp signature !! "Content-Type" = Some "application/json".
Proof. unfold standardHeaders. repeat split; by simplify_map_eq. Qed.

Lemma wireHeader_Get token timestamp signature :
  http.Header_Get "Authorization" (wireHeader token timestamp signature) = "Bearer " +:+ token
  /\ http.Header_Get "BRI-Timestamp" (wireHeader token timestamp signature) = timestamp
  /\ http.Header_Get "BRI-Signature" (wireHeader token timestamp signature) = signature
  /\ http.Header_Get "Content-Type" (wireHeader token timestamp signature) = "application/json".
Proof. repeat split. Qed.

(** C3.  Each operation hands to [g.Call] a header map in which
    BRI-Signature is [generateSignature] of the endpoint path, the method,
    "Bearer " followed by the token, the timestamp, the serialised body and
    the client secret, where the path, the method, the Authorization value,
    the BRI-Timestamp value and the body are the ones handed over with it;
    and on every request [NewRequest] builds from those headers and that
    body, the BRI-Signature header is [generateSignature] of the endpoint
    path and of the method, Authorization header, BRI-Timestamp header and
    body of that request. *)
Theorem signature_on_the_wire op g token (req : RequestOf op) w :
  let path := endpoint op (urls w) in
  let method := verb op in
  let authorization := "Bearer " +:+ token in
  let timestamp := getTimestamp BRI_TIME_FORMAT in
  let body := (json.Marshal (serialised op req)).1 in
  let secret := ClientSecret (CoreGateway.Client g) in
  let signature := generateSignature path method authorization timestamp body secret in
  let headers := standardHeaders token timestamp signature in
  sends op g token req w method path headers body
  /\ headers !! "BRI-Signature" = Some signature
  /\ headers !! "Authorization" = Some authorization
  /\ headers !! "BRI-Timestamp" = Some timestamp
  /\ forall (env : Env) (c : Client) (fullPath : string) (w0 : World) (r : http.Request),
       (NewRequest c method fullPath (Some headers) body w0).1 = inl r ->
       http.Header_Get "BRI-Signature" (http.Header r)
       = generateSignature path (http.Method r)
           (http.Header_Get "Authorization" (http.Header r))
           (http.Header_Get "BRI-Timestamp" (http.Header r))
           (http.Body r) secret.
Proof.
  intros path method authorization timestamp body secret signature headers.
  destruct (standardHeaders_lookup token timestamp signature) as (Ha & Ht & Hs & _).
  split; [apply perform_sends|]. repeat (split; [assumption|]).
  intros env c fullPath w0 r. unfold headers. rewrite NewRequest_standardHeaders.
  unfold http_NewRequest.
  replace (if String.eqb method "" then "GET" else method) with method
    by (unfold method; destruct op; reflexivity).
  destruct (negb _); [discriminate|].
  destruct (url_Parse fullPath); [|discriminate].
  simpl. intros [= <-]. simpl.
  destruct (wireHeader_Get token timestamp signature) as (-> & -> & -> & _).
  reflexivity.
Qed.

(** C8.  Each operation hands to [g.Call] a header map whose keys are
    exactly Authorization, BRI-Timestamp, BRI-Signature and Content-Type,
    with Content-Type application/json; and the header of every request
    [NewRequest] builds from that map has exactly four keys, the canonical
    spellings of those four names, each with the one value of the map. *)
Theorem standard_headers_only op g token (req : RequestOf op) w :
  let path := endpoint op (urls w) in
  let method := verb op in
  let timestamp := getTimestamp BRI_TIME_FORMAT in
  let body := (json.Marshal (serialised op req)).1 in
  let signature :=
    generateSignature path method ("Bearer " +:+ token) timestamp body
                      (ClientSecret (CoreGateway.Client g)) in
  let headers := standardHeaders token timestamp signature in
  sends op g token req w method path headers body
  /\ dom headers = standardHeaderNames
  /\ headers !! "Content-Type" = Some "application/json"
  /\ forall (env : Env) (c : Client) (fullPath : string) (w0 : World) (r : http.Request),
       (NewRequest c method fullPath (Some headers) body w0).1 = inl r ->
       dom (http.Header r)
       = set_map textproto.CanonicalMIMEHeaderKey standardHeaderNames
       /\ size (http.Header r) = 4%nat
       /\ http.Header_Get "Content-Type" (http.Header r) = "application/json"
       /\ forall k, k ∈ standardHeaderNames ->
            http.Header r !! textproto.CanonicalMIMEHeaderKey k
            = (fun value => [value]) <$> headers !! k.
Proof.
  intros path method timestamp body signature headers.
  split; [apply perform_sends|].
  split; [unfold headers, standardHeaders, standardHeaderNames;
          rewrite !dom_insert_L, dom_singleton_L; set_solver|].
  split; [apply standardHeaders_lookup|].
  intros env c fullPath w0 r. unfold headers. rewrite NewRequest_standardHeaders.
  destruct (http_NewRequest method fullPath body); [|discriminate].
  simpl. intros [= <-]. simpl.
  split; [unfold wireHeader; rewrite !dom_insert_L, dom_singleton_L;
          vm_compute; reflexivity|].
  split; [reflexivity|]. split; [reflexivity|].
  intros k Hk. unfold standardHeaderNames in Hk.
  rewrite !elem_of_union, !elem_of_singleton in Hk.
  destruct Hk as [[[-> | ->] | ->] | ->]; unfold standardHeaders; by simplify_map_eq.
Qed.

(** C7.  When serialising the request record fails, [json.Marshal] gives
    no bytes and an error; the operation drops that error, computes the
    signature over the empty body, and calls [g.Call] with the empty body
    all the same, so the error it returns is the one [g.Call] returns. *)
Theorem marshal_error_discarded op g token (req : RequestOf op) w e :
  encode (serialised op req) = inr e ->
  let path := endpoint op (urls w) in
  let method := verb op in
  let timestamp := getTimestamp BRI_TIME_FORMAT in
  let signature :=
    generateSignature path method ("Bearer " +:+ token) timestamp ""
                      (ClientSecret (CoreGateway.Client g)) in
  let headers := standardHeaders token timestamp signature in
  json.Marshal (serialised op req) = ("", Some e)
  /\ sends op g token req w method path headers ""
  /\ (perform op g token req w).1.2
     = (gateway_Call g method path (Some headers) "" (zero : ResponseOf op) w).1.2.
Proof.
  intros Hencode path method timestamp signature headers.
  assert (Hmarshal : json.Marshal (serialised op req) = ("", Some e))
    by (unfold json.Marshal; rewrite Hencode; reflexivity).
  assert (Hsends : sends op g token req w method path headers "").
  { pose proof (perform_sends op g token req w) as Hs.
    simpl in Hs. rewrite Hmarshal in Hs. exact Hs. }
  split; [exact Hmarshal|]. split; [exact Hsends|].
  unfold sends in Hsends. rewrite Hsends. reflexivity.
Qed.

(** C9.  [CreateCardTokenOTP] serialises the record with [OtpBriStatus]
    set to "YES": the body it signs and hands to [g.Call] is the
    serialisation of that record, and the value of [OtpBriStatus] the caller
    supplied has no part in what the operation does. *)
Theorem CreateCardTokenOTP_forces_OtpBriStatus g token (req : CardTokenOTPRequest) w :
  let forced :=
    {| Body := {| OtpBriStatus := "YES"; cardFields := cardFields (Body req) |} |} in
  let path := urlCreateCardTokenOTP (urls w) in
  let timestamp := getTimestamp BRI_TIME_FORMAT in
  let body := (json.Marshal forced).1 in
  let signature :=
    generateSignature path http.MethodPost ("Bearer " +:+ token) timestamp body
                      (ClientSecret (CoreGateway.Client g)) in
  OtpBriStatus (Body forced) = "YES"
  /\ CreateCardTokenOTP g token req w
     = gateway_Call g http.MethodPost path
         (Some (standardHeaders token timestamp signature)) body zero w
  /\ forall status : string,
       CreateCardTokenOTP g token
         {| Body := {| OtpBriStatus := status; cardFields := cardFields (Body req) |} |} w
       = CreateCardTokenOTP g token req w.
Proof.
  intros forced path timestamp body signature.
  split; [reflexivity|]. split.
  - exact (perform_sends OpCreateCardTokenOTP g token req w).
  - intros status. reflexivity.
Qed.

(** C4.  After [DirectDebitHostUseSandboxPrefix(true)] each of the seven
    endpoint variables begins with /sandbox/v1/directdebit/, after
    [DirectDebitHostUseSandboxPrefix(false)] each begins with
    /v1/rt-directdebit/; an operation run in the world the switch leaves
    signs and hands to [g.Call] a path with that prefix. *)
Theorem sandbox_switch_prefixes (c : Client) w :
  Forall (fun url => HasPrefix url sandboxPrefix = true)
         (all_urls (urls (DirectDebitHostUseSandboxPrefix c true w)))
  /\ Forall (fun url => HasPrefix url productionPrefix = true)
            (all_urls (urls (DirectDebitHostUseSandboxPrefix c false w)))
  /\ forall (use : bool) op g token (req : RequestOf op),
       let w' := DirectDebitHostUseSandboxPrefix c use w in
       let path := endpoint op (urls w') in
       let timestamp := getTimestamp BRI_TIME_FORMAT in
       let body := (json.Marshal (serialised op req)).1 in
       let signature :=
         generateSignature path (verb op) ("Bearer " +:+ token) timestamp body
                           (ClientSecret (CoreGateway.Client g)) in
       HasPrefix path (if use then sandboxPrefix else productionPrefix) = true
       /\ sends op g token req w' (verb op) path
            (standardHeaders token timestamp signature) body.
Proof.
  split; [repeat constructor|]. split; [repeat constructor|].
  intros use op g token req w' path timestamp body signature.
  split; [destruct use, op; reflexivity|].
  apply perform_sends.
Qed.

(** C6.  As [direct_debit.go] initialises them, the endpoint variables of
    the four operations hold /v1/directdebit/tokens, /v1/directdebit/charges
    and /v1/directdebit/charges/verify, none of which begins with the
    sandbox prefix or with the production prefix; an operation run before
    any switch signs and hands to [g.Call] one of these paths. *)
Theorem initial_paths_have_neither_prefix
    (deleteCardToken chargeDetail refundDirectDebit : string) :
  let e := initial_urls deleteCardToken chargeDetail refundDirectDebit in
  endpoint OpCreateCardTokenOTP e = "/v1/directdebit/tokens"
  /\ endpoint OpCreateCardTokenOTPVerify e = "/v1/directdebit/tokens"
  /\ endpoint OpCreatePaymentChargeOTP e = "/v1/directdebit/charges"
  /\ endpoint OpCreatePaymentChargeOTPVerify e = "/v1/directdebit/charges/verify"
  /\ (forall op, HasPrefix (endpoint op e) sandboxPrefix = false
                 /\ HasPrefix (endpoint op e) productionPrefix = false)
  /\ forall op g token (req : RequestOf op) (lines : list (list LogArg)),
       let w := {| urls := e; logged := lines |} in
       let timestamp := getTimestamp BRI_TIME_FORMAT in
       let body := (json.Marshal (serialised op req)).1 in
       let signature :=
         generateSignature (endpoint op e) (verb op) ("Bearer " +:+ token) timestamp
                           body (ClientSecret (CoreGateway.Client g)) in
       sends op g token req w (verb op) (endpoint op e)
             (standardHeaders token timestamp signature) body.
Proof.
  intros e. repeat (split; [reflexivity|]).
  split; [intros op; destruct op; split; reflexivity|].
  intros op g token req lines w timestamp body signature.
  exact (perform_sends op g token req w).
Qed.

End Facade.

(** *** The operations on the fake *)

(** C3 at [CreateCardTokenOTP] with token "t": the request [NewRequest]
    builds carries the signature of the values it carries. *)
Lemma signature_on_the_wire_witness :
  let body := "{otpBriStatus:YES,cardPan:4111111111111111}" in
  let signature :=
    Fake.sign "/v1/directdebit/tokens" "POST" "Bearer t" "20210101000000" body "s" in
  exists r : http.Request,
    (@NewRequest Fake.tokenTransport Fake.client "POST"
       "https://bri.test/v1/directdebit/tokens"
       (Some (standardHeaders "t" "20210101000000" signature)) body Fake.world).1
    = inl r
    /\ http.Header_Get "BRI-Signature" (http.Header r) = signature.
Proof.
  intros body signature.
  destruct (@signature_on_the_wire Fake.records Fake.tokenGateway
              OpCreateCardTokenOTP Fake.coreGateway "t" Fake.cardRequest Fake.world)
    as (_ & _ & _ & _ & Hwire).
  eexists. split.
  - vm_compute. reflexivity.
  - etransitivity.
    + apply (Hwire Fake.tokenTransport Fake.client
               "https://bri.test/v1/directdebit/tokens" Fake.world).
      vm_compute. reflexivity.
    + vm_compute. reflexivity.
Defined.

(** C8 at [CreateCardTokenOTP] with token "t": the request [NewRequest]
    builds has four headers. *)
Lemma standard_headers_only_witness :
  let body := "{otpBriStatus:YES,cardPan:4111111111111111}" in
  let signature :=
    Fake.sign "/v1/directdebit/tokens" "POST" "Bearer t" "20210101000000" body "s" in
  exists r : http.Request,
    (@NewRequest Fake.tokenTransport Fake.client "POST"
       "https://bri.test/v1/directdebit/tokens"
       (Some (standardHeaders "t" "20210101000000" signature)) body Fake.world).1
    = inl r
    /\ size (http.Header r) = 4%nat
    /\ http.Header_Get "Content-Type" (http.Header r) = "application/json".
Proof.
  intros body signature.
  destruct (@standard_headers_only Fake.records Fake.tokenGateway
              OpCreateCardTokenOTP Fake.coreGateway "t" Fake.cardRequest Fake.world)
    as (_ & _ & _ & Hwire).
  set (r := {| http.Method := "POST";
               http.Url := {| http.Host := "bri.test";
                              http.Path := "https://bri.test/v1/directdebit/tokens" |};
               http.Header := wireHeader "t" "20210101000000" signature;
               http.Body := body |}).
  assert (Hbuilt :
            (@NewRequest Fake.tokenTransport Fake.client "POST"
               "https://bri.test/v1/directdebit/tokens"
               (Some (standardHeaders "t" "20210101000000" signature)) body
               Fake.world).1 = inl r)
    by (vm_compute; reflexivity).
  exists r. split; [exact Hbuilt|].
  destruct (Hwire Fake.tokenTransport Fake.client
              "https://bri.test/v1/directdebit/tokens" Fake.world r Hbuilt)
    as (_ & Hsize & Hcontent & _).
  split; assumption.
Defined.

(** C7 at [CreatePaymentChargeOTP] with an amount the encoder refuses: the
    operation calls [g.Call] with the empty body and its signature. *)
Lemma marshal_error_discarded_witness :
  @encode _ Fake.amount_JSON None = inr (foreignError "json: unsupported value: NaN")
  /\ @sends Fake.records Fake.tokenGateway OpCreatePaymentChargeOTP
       Fake.coreGateway "t" None Fake.world
       "POST" "/v1/directdebit/charges"
       (standardHeaders "t" "20210101000000"
          (Fake.sign "/v1/directdebit/charges" "POST" "Bearer t" "20210101000000" "" "s"))
       "".
Proof.
  split; [reflexivity|].
  exact (proj1 (proj2 (@marshal_error_discarded Fake.records Fake.tokenGateway
                         OpCreatePaymentChargeOTP Fake.coreGateway "t" None Fake.world
                         (foreignError "json: unsupported value: NaN") eq_refl))).
Defined.

(** *** The scenarios of the specification on the fake *)

(** A card token is created: the response record holds the token and the
    error is nil. *)
Example scenario_card_token_created :
  (@CreateCardTokenOTP Fake.records Fake.tokenGateway Fake.coreGateway "t"
     Fake.cardRequest Fake.world).1
  = ({| Fake.status := "success"; Fake.cardToken := "abc" |}, None).
Proof. vm_compute. reflexivity. Qed.

(** The remote answers 200 with a body of another shape: the error is the
    pending-transaction sentinel. *)
Example scenario_pending :
  (@CreateCardTokenOTP Fake.records
     (Fake.gateway (Fake.response 200 Fake.pendingBody) None) Fake.coreGateway "t"
     Fake.cardRequest Fake.world).1.2
  = Some (errorString "pending transaction").
Proof. vm_compute. reflexivity. Qed.

(** The remote answers 404: the message of the error is "invalid url". *)
Example scenario_not_found :
  Error <$> (@CreateCardTokenOTP Fake.records
               (Fake.gateway (Fake.response 404 "Not Found") None) Fake.coreGateway
               "t" Fake.cardRequest Fake.world).1.2
  = Some "invalid url".
Proof. vm_compute. reflexivity. Qed.

(** At log level 3 a call that ends at the 404 test has written four lines. *)
Example scenario_not_found_log :
  logged (after (@ExecuteRequest (Fake.transport (Fake.response 404 "Not Found") None)
                   _ _ Fake.CardToken_JSON Fake.RemoteError_JSON
                   Fake.client Fake.request (Some Fake.emptyToken)
                   (Some Fake.emptyError) Fake.world))
  = [ [LStr "Request "; LStr "POST"; LStr ": "; LStr "bri.test";
       LStr "/v1/directdebit/tokens"];
      [LStr "Completed in "; LDur 1500000];
      [LStr "BRI HTTP status response: "; LInt 404];
      [LStr "BRI body response: "; LStr "Not Found"] ].
Proof. vm_compute. reflexivity. Qed.

(** The canonical spelling of the four header names. *)
Example canonical_header_names :
  textproto.CanonicalMIMEHeaderKey <$>
    ["Authorization"; "BRI-Timestamp"; "BRI-Signature"; "Content-Type"]
  = ["Authorization"; "Bri-Timestamp"; "Bri-Signature"; "Content-Type"].
Proof. reflexivity. Qed.

(** * Further properties of the transport *)

Section Outcomes.
Context `{Env} {V E : Type} `{!JSON V, !JSON E}.
Implicit Types (c : Client) (req : http.Request) (v : option V) (vErr : option E)
  (w : World).

(** Take [ExecuteRequest] apart along every branch it has. *)
Ltac branches c req v vErr :=
  unfold ExecuteRequest;
  destruct (httpclient_Do (getHTTPClient c) req) as [?res [?e|]];
  [|destruct (ioutil.ReadAll (http.ResBody res)) as [?resBody [?e|]];
    [|destruct v as [?x|];
      [destruct (json.Unmarshal resBody x) as [?x' [?e|]];
       [destruct vErr as [?y|];
        [destruct (json.Unmarshal resBody y) as [?y' ?err]|]|]|]]];
  repeat case_bool_decide.

(** X1.  When the response has status 204 and its body has been read,
    [ExecuteRequest] returns the error "204: empty response" and leaves both
    sinks as they were. *)
Theorem ExecuteRequest_empty_response c req v vErr w res resBody :
  httpclient_Do (getHTTPClient c) req = (res, None) ->
  http.StatusCode res = 204 ->
  ioutil.ReadAll (http.ResBody res) = (resBody, None) ->
  returned (ExecuteRequest c req v vErr w) = Some (errors_New "204: empty response")
  /\ sink (ExecuteRequest c req v vErr w) = v
  /\ errorSink (ExecuteRequest c req v vErr w) = vErr.
Proof.
  intros HDo H204 HRead. unfold ExecuteRequest. rewrite HDo, HRead.
  rewrite bool_decide_eq_false_2 by lia.
  rewrite (bool_decide_eq_true_2 _ H204). repeat split.
Qed.

(** X2.  Without a success sink nothing is decoded: once the body has been
    read, every status other than 404 and 204, a status 500 included, gives
    a nil error, and the error sink is left as it was. *)
Theorem ExecuteRequest_without_success_sink c req vErr w res resBody :
  httpclient_Do (getHTTPClient c) req = (res, None) ->
  ioutil.ReadAll (http.ResBody res) = (resBody, None) ->
  http.StatusCode res <> 404 -> http.StatusCode res <> 204 ->
  returned (ExecuteRequest c req (None : option V) vErr w) = None
  /\ sink (ExecuteRequest c req (None : option V) vErr w) = None
  /\ errorSink (ExecuteRequest c req (None : option V) vErr w) = vErr.
Proof.
  intros HDo HRead H404 H204. unfold ExecuteRequest. rewrite HDo, HRead.
  rewrite !bool_decide_eq_false_2 by assumption. repeat split.
Qed.

(** X3.  When the body decodes into the success sink, [ExecuteRequest]
    returns nil whatever the status is (other than 404 and 204): the sink
    holds the decoded value and the error sink is left as it was. *)
Theorem ExecuteRequest_decoded c req (x x' : V) vErr w res resBody :
  httpclient_Do (getHTTPClient c) req = (res, None) ->
  ioutil.ReadAll (http.ResBody res) = (resBody, None) ->
  http.StatusCode res <> 404 -> http.StatusCode res <> 204 ->
  json.Unmarshal resBody x = (x', None) ->
  returned (ExecuteRequest c req (Some x) vErr w) = None
  /\ sink (ExecuteRequest c req (Some x) vErr w) = Some x'
  /\ errorSink (ExecuteRequest c req (Some x) vErr w) = vErr.
Proof.
  intros HDo HRead H404 H204 Hdec. unfold ExecuteRequest.
  rewrite HDo, HRead, Hdec.
  rewrite !bool_decide_eq_false_2 by assumption. repeat split.
Qed.

(** X4.  When the HTTP client gives an error, [ExecuteRequest] returns it,
    leaves both sinks as they were, and writes the line "Cannot send
    request: " with the error to the log exactly when the log level is above
    0. *)
Theorem ExecuteRequest_transport_error c req v vErr w res e :
  httpclient_Do (getHTTPClient c) req = (res, Some e) ->
  returned (ExecuteRequest c req v vErr w) = Some e
  /\ sink (ExecuteRequest c req v vErr w) = v
  /\ errorSink (ExecuteRequest c req v vErr w) = vErr
  /\ ([LStr "Cannot send request: "; LErr e]
        ∈ drop (length (logged w)) (logged (after (ExecuteRequest c req v vErr w)))
      <-> LogLevel c > 0).
Proof.
  intros HDo. rewrite (ExecuteRequest_send_failed _ _ _ _ _ _ _ HDo). simpl.
  repeat (split; [reflexivity|]).
  repeat case_bool_decide; simpl;
    rewrite <- ?app_assoc, ?drop_app_length, ?drop_all; simpl;
    (split; [intros Hin; try lia; exfalso; set_solver | intros Hlevel; try lia; set_solver]).
Qed.

(** X5.  When reading the body fails, [ExecuteRequest] returns the error of
    the read whatever the status of the response is, and leaves both sinks as
    they were. *)
Theorem ExecuteRequest_read_error c req v vErr w res partial e :
  httpclient_Do (getHTTPClient c) req = (res, None) ->
  ioutil.ReadAll (http.ResBody res) = (partial, Some e) ->
  returned (ExecuteRequest c req v vErr w) = Some e
  /\ sink (ExecuteRequest c req v vErr w) = v
  /\ errorSink (ExecuteRequest c req v vErr w) = vErr.
Proof.
  intros HDo HRead. unfold ExecuteRequest. rewrite HDo, HRead. repeat split.
Qed.

(** X6.  Without an error sink, a body that does not decode into the
    success sink makes [ExecuteRequest] return the error of that decoding
    when the status is not 200 (nor 404, nor 204); the success sink holds
    what the failed decoding left in it. *)
Theorem ExecuteRequest_decode_error_without_error_sink c req (x : V) w res resBody e :
  httpclient_Do (getHTTPClient c) req = (res, None) ->
  ioutil.ReadAll (http.ResBody res) = (resBody, None) ->
  http.StatusCode res <> 404 -> http.StatusCode res <> 204 ->
  http.StatusCode res <> 200 ->
  (json.Unmarshal resBody x).2 = Some e ->
  returned (ExecuteRequest c req (Some x) (None : option E) w) = Some e
  /\ sink (ExecuteRequest c req (Some x) (None : option E) w)
     = Some (json.Unmarshal resBody x).1
  /\ errorSink (ExecuteRequest c req (Some x) (None : option E) w) = None.
Proof.
  intros HDo HRead H404 H204 H200 Hdec. unfold ExecuteRequest.
  rewrite HDo, HRead.
  destruct (json.Unmarshal resBody x) as [x' err]; simpl in Hdec; subst err.
  rewrite !bool_decide_eq_false_2 by assumption. repeat split.
Qed.

(** X7.  When the body decodes neither into the success sink nor into the
    error sink and the status is not 200 (nor 404, nor 204),
    [ExecuteRequest] returns the error of the second decoding, the one into
    the error sink; each sink holds what its failed decoding left in it. *)
Theorem ExecuteRequest_both_decodings_fail c req (x : V) (y : E) w res resBody e1 e2 :
  httpclient_Do (getHTTPClient c) req = (res, None) ->
  ioutil.ReadAll (http.ResBody res) = (resBody, None) ->
  http.StatusCode res <> 404 -> http.StatusCode res <> 204 ->
  http.StatusCode res <> 200 ->
  (json.Unmarshal resBody x).2 = Some e1 ->
  (json.Unmarshal resBody y).2 = Some e2 ->
  returned (ExecuteRequest c req (Some x) (Some y) w) = Some e2
  /\ sink (ExecuteRequest c req (Some x) (Some y) w) = Some (json.Unmarshal resBody x).1
  /\ errorSink (ExecuteRequest c req (Some x) (Some y) w)
     = Some (json.Unmarshal resBody y).1.
Proof.
  intros HDo HRead H404 H204 H200 Hx Hy. unfold ExecuteRequest.
  rewrite HDo, HRead.
  destruct (json.Unmarshal resBody x) as [x' err1]; simpl in Hx; subst err1.
  destruct (json.Unmarshal resBody y) as [y' err2]; simpl in Hy; subst err2.
  rewrite !bool_decide_eq_false_2 by assumption. repeat split.
Qed.

(** X8.  Without an error sink, a nil error means the result is in the
    success sink: the HTTP client gave a response and no error, the body was
    read, the status is neither 404 nor 204, and the sink holds the body
    decoded without an error. *)
Theorem ExecuteRequest_nil_means_decoded c req (x : V) w :
  returned (ExecuteRequest c req (Some x) (None : option E) w) = None ->
  let res := (httpclient_Do (getHTTPClient c) req).1 in
  let resBody := (ioutil.ReadAll (http.ResBody res)).1 in
  (httpclient_Do (getHTTPClient c) req).2 = None
  /\ (ioutil.ReadAll (http.ResBody res)).2 = None
  /\ http.StatusCode res <> 404 /\ http.StatusCode res <> 204
  /\ (json.Unmarshal resBody x).2 = None
  /\ sink (ExecuteRequest c req (Some x) (None : option E) w)
     = Some (json.Unmarshal resBody x).1.
Proof.
  intros Hret. cbv zeta.
  destruct (httpclient_Do (getHTTPClient c) req) as [res [e0|]] eqn:HDo.
  { rewrite (ExecuteRequest_send_failed _ _ _ _ _ _ _ HDo) in Hret.
    discriminate Hret. }
  cbn [fst snd].
  destruct (ioutil.ReadAll (http.ResBody res)) as [resBody [e1|]] eqn:HRead.
  { unfold ExecuteRequest in Hret. rewrite HDo, HRead in Hret.
    discriminate Hret. }
  cbn [fst snd].
  unfold ExecuteRequest in Hret |- *. rewrite HDo, HRead in Hret |- *.
  destruct (json.Unmarshal resBody x) as [x' [e|]];
    repeat case_bool_decide; try discriminate Hret; repeat split; assumption.
Qed.

(** X9.  A call only appends to the log, at most four lines, and leaves the
    endpoint variables as they were. *)
Theorem ExecuteRequest_appends_to_log c req v vErr w :
  exists lines : list (list LogArg),
    logged (after (ExecuteRequest c req v vErr w)) = (logged w ++ lines)%list
    /\ (length lines <= 4)%nat
    /\ urls (after (ExecuteRequest c req v vErr w)) = urls w.
Proof.
  branches c req v vErr; simpl; rewrite <- ?app_assoc; simpl;
    (eexists; split; [first [reflexivity | symmetry; apply app_nil_r]|];
     split; [simpl; lia | reflexivity]).
Qed.

(** X10.  At a log level of 0 or below nothing is written: after
    [NewRequest], after [ExecuteRequest] and after [Call] the world is the
    world before the call, whether the call fails or not. *)
Theorem silent_at_level_0 c req method path headers body v vErr w :
  LogLevel c <= 0 ->
  (NewRequest c method path headers body w).2 = w
  /\ after (ExecuteRequest c req v vErr w) = w
  /\ after (Call c method path headers body v vErr w) = w.
Proof.
  intros Hlevel.
  assert (Hexec : forall req, after (ExecuteRequest c req v vErr w) = w)
    by (clear req; intros req; branches c req v vErr; try lia; reflexivity).
  assert (Hnew : (NewRequest c method path headers body w).2 = w).
  { unfold NewRequest. destruct (http_NewRequest method path body); [reflexivity|].
    simpl. rewrite bool_decide_eq_false_2 by lia. reflexivity. }
  split; [exact Hnew|]. split; [apply Hexec|].
  unfold Call. destruct (NewRequest c method path headers body w) as [[r|err] w'];
    simpl in Hnew; subst w'; [apply Hexec | reflexivity].
Qed.

(** X11.  At log level 1 only the failure to send the request and the
    failure to read the body are logged: once the body has been read the
    call has written nothing, whatever it returns (an error for a status 404
    or 204, or a decoding error, included). *)
Theorem ExecuteRequest_logs_transport_errors_only c req v vErr w res resBody :
  LogLevel c <= 1 ->
  httpclient_Do (getHTTPClient c) req = (res, None) ->
  ioutil.ReadAll (http.ResBody res) = (resBody, None) ->
  after (ExecuteRequest c req v vErr w) = w.
Proof.
  intros Hlevel HDo HRead. unfold ExecuteRequest. rewrite HDo, HRead.
  rewrite !(bool_decide_eq_false_2 (LogLevel c > _)) by lia.
  destruct v as [x|];
    [destruct (json.Unmarshal resBody x) as [x' [e|]];
     [destruct vErr as [y|]; [destruct (json.Unmarshal resBody y) as [y' err]|]|]|];
    repeat case_bool_decide; reflexivity.
Qed.

(** X12.  At a log level of 2 or below neither the body of the response,
    nor its status, nor the duration is logged: every line a call writes is
    the request line or the line of a failure to send or to read. *)
Theorem ExecuteRequest_never_logs_body_below_debug c req v vErr w :
  LogLevel c <= 2 ->
  Forall (fun line =>
            head line = Some (LStr "Request ")
            \/ head line = Some (LStr "Cannot send request: ")
            \/ head line = Some (LStr "Cannot read response body: "))
         (drop (length (logged w)) (logged (after (ExecuteRequest c req v vErr w)))).
Proof.
  intros Hlevel. branches c req v vErr; try lia; simpl;
    rewrite <- ?app_assoc, ?drop_app_length, ?drop_all;
    repeat first [apply List.Forall_nil | apply List.Forall_cons; [simpl; auto|]].
Qed.

(** X14.  At log level 2, the level [NewClient] sets, a call that gets a
    response and reads its body writes one line, the request line with the
    method, the host and the path, whatever it returns. *)
Theorem ExecuteRequest_logs_request_line c req v vErr w res resBody :
  LogLevel c = 2 ->
  httpclient_Do (getHTTPClient c) req = (res, None) ->
  ioutil.ReadAll (http.ResBody res) = (resBody, None) ->
  LogLevel NewClient = 2
  /\ logged (after (ExecuteRequest c req v vErr w))
     = (logged w ++ [[LStr "Request "; LStr (http.Method req); LStr ": ";
                      LStr (http.Host (http.Url req));
                      LStr (http.Path (http.Url req))]])%list.
Proof.
  intros Hlevel HDo HRead. split; [reflexivity|].
  unfold ExecuteRequest. rewrite HDo, HRead, Hlevel.
  rewrite (bool_decide_eq_true_2 (2 > 1)) by lia.
  rewrite !(bool_decide_eq_false_2 (2 > 2)) by lia.
  destruct v as [x|];
    [destruct (json.Unmarshal resBody x) as [x' [e|]];
     [destruct vErr as [y|]; [destruct (json.Unmarshal resBody y) as [y' err]|]|]|];
    repeat case_bool_decide; reflexivity.
Qed.

(** X20.  Whenever decoding into the success sink fails and an error sink
    is given, the error sink holds the body decoded into it, also when the
    status is 200 and the error returned is the pending-transaction
    sentinel, and also when that second decoding fails. *)
Theorem ExecuteRequest_fills_error_sink c req (x : V) (y : E) w res resBody e :
  httpclient_Do (getHTTPClient c) req = (res, None) ->
  ioutil.ReadAll (http.ResBody res) = (resBody, None) ->
  http.StatusCode res <> 404 -> http.StatusCode res <> 204 ->
  (json.Unmarshal resBody x).2 = Some e ->
  errorSink (ExecuteRequest c req (Some x) (Some y) w)
  = Some (json.Unmarshal resBody y).1
  /\ sink (ExecuteRequest c req (Some x) (Some y) w)
     = Some (json.Unmarshal resBody x).1
  /\ (http.StatusCode res = 200 ->
      returned (ExecuteRequest c req (Some x) (Some y) w) = Some ErrPendingTransaction).
Proof.
  intros HDo HRead H404 H204 Hdec.
  split; [exact (ExecuteRequest_errorSink _ _ _ _ _ _ _ _ HDo HRead H404 H204 Hdec)|].
  split.
  - unfold ExecuteRequest. rewrite HDo, HRead.
    rewrite !bool_decide_eq_false_2 by assumption.
    destruct (json.Unmarshal resBody x) as [x' err]; simpl in Hdec; subst err.
    destruct (json.Unmarshal resBody y) as [y' err].
    case_bool_decide; reflexivity.
  - intros H200.
    rewrite (ExecuteRequest_returned _ _ _ _ _ _ _ HDo HRead), Hdec, H200.
    reflexivity.
Qed.


End Outcomes.

(** * Further properties of [NewRequest] and [Call] *)

Section Requests.
Context `{Env}.

(** A request [NewRequest] has built: the world is untouched, the body is
    the one given, and the header is the map of the stored entries, the
    last visited first. *)
Lemma NewRequest_built c method fullPath (headers : gmap string string) body w r w' :
  NewRequest c method fullPath (Some headers) body w = (inl r, w') ->
  w' = w
  /\ http.Body r = body
  /\ http.Method r = (if String.eqb method "" then "GET" else method)
  /\ url_Parse fullPath = inl (http.Url r)
  /\ http.Header r = list_to_map (rev (stored <$> range_order headers)).
Proof.
  unfold NewRequest, http_NewRequest.
  destruct (negb _); [discriminate|].
  destruct (url_Parse fullPath) as [u|err]; [|discriminate].
  rewrite range_sets_header. simpl. intros [= <- <-]. simpl.
  rewrite (right_id_L ∅ (∪)). repeat split.
Qed.

Lemma elem_of_stored (headers : gmap string string) ck vs :
  (ck, vs) ∈ rev (stored <$> range_order headers)
  <-> exists k v, headers !! k = Some v
                  /\ ck = textproto.CanonicalMIMEHeaderKey k /\ vs = [v].
Proof.
  rewrite <- Permutation_rev, (range_order_perm headers), list_elem_of_fmap.
  split.
  - intros [[k v] [[= -> ->] Hin]]. apply elem_of_map_to_list in Hin. eauto.
  - intros (k & v & Hin & -> & ->). exists (k, v).
    split; [reflexivity|]. by apply elem_of_map_to_list.
Qed.

Lemma size_list_to_map_le (l : list (string * list string)) :
  (size (list_to_map l : gmap string (list string)) <= length l)%nat.
Proof.
  induction l as [|[k x] l IH]; simpl.
  - by rewrite map_size_empty.
  - rewrite map_size_insert. destruct (_ !! k); unfold id; lia.
Qed.

(** X15.  The header of a request [NewRequest] builds from a map: every
    key of the map is answered by [Header.Get] with the value of a key of
    the map that has the same canonical spelling, its own value when no
    other key shares its spelling; a name whose spelling no key has is
    answered with the empty string; and the header has at most as many
    entries as the map.  This holds in whatever order [range] visits the
    map. *)
Theorem NewRequest_attaches_headers c method fullPath (headers : gmap string string)
    body w r w' :
  NewRequest c method fullPath (Some headers) body w = (inl r, w') ->
  (forall k v, headers !! k = Some v ->
     exists k' v',
       textproto.CanonicalMIMEHeaderKey k' = textproto.CanonicalMIMEHeaderKey k
       /\ headers !! k' = Some v'
       /\ http.Header_Get k (http.Header r) = v')
  /\ (forall k v, headers !! k = Some v ->
        (forall k', is_Some (headers !! k') ->
           textproto.CanonicalMIMEHeaderKey k' = textproto.CanonicalMIMEHeaderKey k ->
           k' = k) ->
        http.Header_Get k (http.Header r) = v)
  /\ (forall name,
        (forall k, is_Some (headers !! k) ->
           textproto.CanonicalMIMEHeaderKey k <> textproto.CanonicalMIMEHeaderKey name) ->
        http.Header_Get name (http.Header r) = "")
  /\ (size (http.Header r) <= size headers)%nat.
Proof.
  intros Hnew. destruct (NewRequest_built _ _ _ _ _ _ _ _ Hnew) as (_ & _ & _ & _ & HH).
  assert (Hsome : forall k v, headers !! k = Some v ->
            exists k' v',
              textproto.CanonicalMIMEHeaderKey k' = textproto.CanonicalMIMEHeaderKey k
              /\ headers !! k' = Some v'
              /\ http.Header r !! textproto.CanonicalMIMEHeaderKey k = Some [v']).
  { intros k v Hk. rewrite HH.
    destruct (list_to_map (rev (stored <$> range_order headers))
                !! textproto.CanonicalMIMEHeaderKey k) as [vs|] eqn:Hlook.
    - apply elem_of_list_to_map_2, elem_of_stored in Hlook.
      destruct Hlook as (k' & v' & Hk' & Hcanon & ->). eauto.
    - apply not_elem_of_list_to_map in Hlook. exfalso. apply Hlook.
      apply list_elem_of_fmap.
      exists (textproto.CanonicalMIMEHeaderKey k, [v]). split; [reflexivity|].
      apply elem_of_stored. eauto. }
  split; [|split; [|split]].
  - intros k v Hk. destruct (Hsome k v Hk) as (k' & v' & Hcanon & Hk' & Hlook).
    exists k', v'. unfold http.Header_Get. rewrite Hlook. auto.
  - intros k v Hk Hunique.
    destruct (Hsome k v Hk) as (k' & v' & Hcanon & Hk' & Hlook).
    assert (k' = k) as -> by (apply Hunique; eauto).
    unfold http.Header_Get. rewrite Hlook. congruence.
  - intros name Hnone. unfold http.Header_Get. rewrite HH.
    destruct (list_to_map (rev (stored <$> range_order headers))
                !! textproto.CanonicalMIMEHeaderKey name) as [vs|] eqn:Hlook;
      [|reflexivity].
    apply elem_of_list_to_map_2, elem_of_stored in Hlook.
    destruct Hlook as (k & v & Hk & Hcanon & ->).
    exfalso. apply (Hnone k); eauto.
  - rewrite HH. etransitivity; [apply size_list_to_map_le|].
    rewrite length_rev, length_fmap, (range_order_perm headers), length_map_to_list.
    reflexivity.
Qed.

(** X16.  A nil map of headers and an empty map are the same to
    [NewRequest], and the request it then builds has an empty header. *)
Theorem NewRequest_without_headers c method fullPath body w :
  NewRequest c method fullPath None body w = NewRequest c method fullPath (Some ∅) body w
  /\ forall r w', NewRequest c method fullPath None body w = (inl r, w') ->
       http.Header r = ∅ /\ http.Header_Get "Authorization" (http.Header r) = "".
Proof.
  assert (Hnil : range_order ∅ = []).
  { apply Permutation_nil. rewrite (range_order_perm ∅), map_to_list_empty.
    reflexivity. }
  split.
  - unfold NewRequest. rewrite Hnil. reflexivity.
  - unfold NewRequest, http_NewRequest. intros r w'.
    destruct (negb _); [discriminate|].
    destruct (url_Parse fullPath); [|discriminate].
    intros [= <- <-]. split; reflexivity.
Qed.

(** X17.  When [http.NewRequest] refuses the method or the URL, [Call]
    returns its error at once: the HTTP client has no part in the result,
    both sinks are left as they were, and the line "Request creation
    failed: " is logged when the log level is above 0. *)
Theorem Call_request_creation_failed {V E : Type} `{!JSON V, !JSON E}
    c method path headers body (v : option V) (vErr : option E) w err :
  http_NewRequest method path body = inr err ->
  Call c method path headers body v vErr w
  = mkResult (Some err) v vErr
      (if bool_decide (LogLevel c > 0)
       then Println [LStr "Request creation failed: "; LErr err] w else w).
Proof.
  intros Hnew. unfold Call, NewRequest. rewrite Hnew. reflexivity.
Qed.

End Requests.

(** * Further properties of the endpoint switch *)

(** X18.  The switch overwrites: after two switches the endpoint variables
    are those of the second alone, the client the switch is called on makes
    no difference, the log is left as it was, and the two settings differ. *)
Theorem DirectDebitHostUseSandboxPrefix_last_wins (c1 c2 : Client) (a b : bool) (w : World) :
  DirectDebitHostUseSandboxPrefix c2 b (DirectDebitHostUseSandboxPrefix c1 a w)
  = DirectDebitHostUseSandboxPrefix c2 b w
  /\ DirectDebitHostUseSandboxPrefix c1 a w = DirectDebitHostUseSandboxPrefix c2 a w
  /\ logged (DirectDebitHostUseSandboxPrefix c1 a w) = logged w
  /\ urls (DirectDebitHostUseSandboxPrefix c1 true w)
     <> urls (DirectDebitHostUseSandboxPrefix c1 false w).
Proof.
  split; [destruct a, b; reflexivity|]. split; [reflexivity|].
  split; [destruct a; reflexivity|]. discriminate.
Qed.

(** X19.  With the endpoint variables as first set, or as either switch
    leaves them, two different operations never have both the same method
    and the same path; creating a card token and verifying it share the path
    and differ in the method. *)
Theorem operations_routed_apart (e : Endpoints) :
  (exists deleteCardToken chargeDetail refundDirectDebit,
      e = initial_urls deleteCardToken chargeDetail refundDirectDebit)
  \/ (exists c use w, e = urls (DirectDebitHostUseSandboxPrefix c use w)) ->
  (forall op1 op2,
      verb op1 = verb op2 -> endpoint op1 e = endpoint op2 e -> op1 = op2)
  /\ endpoint OpCreateCardTokenOTP e = endpoint OpCreateCardTokenOTPVerify e
  /\ verb OpCreateCardTokenOTP <> verb OpCreateCardTokenOTPVerify.
Proof.
  intros He. split; [|split; [|discriminate]].
  - intros op1 op2 Hverb Hpath.
    destruct He as [(d & c & r & ->)|(c & [|] & w & ->)];
      destruct op1, op2; try reflexivity; discriminate.
  - destruct He as [(d & c & r & ->)|(c & [|] & w & ->)]; reflexivity.
Qed.

(** * The further properties on the fake *)

(** X1 at a response 204. *)
Lemma ExecuteRequest_empty_response_witness :
  returned (@ExecuteRequest (Fake.transport (Fake.response 204 "") None)
              _ _ Fake.CardToken_JSON Fake.RemoteError_JSON
              Fake.client Fake.request (Some Fake.emptyToken) (Some Fake.emptyError)
              Fake.world)
  = Some (errors_New "204: empty response").
Proof.
  apply (@ExecuteRequest_empty_response (Fake.transport (Fake.response 204 "") None)
           _ _ Fake.CardToken_JSON Fake.RemoteError_JSON
           Fake.client Fake.request (Some Fake.emptyToken) (Some Fake.emptyError)
           Fake.world (Fake.response 204 "") "").
  - reflexivity.
  - reflexivity.
  - reflexivity.
Defined.

(** X2 at a response 500 and no success sink. *)
Lemma ExecuteRequest_without_success_sink_witness :
  returned (@ExecuteRequest (Fake.transport (Fake.response 500 Sample.serverError) None)
              _ _ Fake.CardToken_JSON Fake.RemoteError_JSON
              Fake.client Fake.request None (Some Fake.emptyError) Fake.world)
  = None.
Proof.
  apply (@ExecuteRequest_without_success_sink
           (Fake.transport (Fake.response 500 Sample.serverError) None)
           _ _ Fake.CardToken_JSON Fake.RemoteError_JSON
           Fake.client Fake.request (Some Fake.emptyError) Fake.world
           (Fake.response 500 Sample.serverError) Sample.serverError).
  - reflexivity.
  - reflexivity.
  - simpl. lia.
  - simpl. lia.
Defined.

(** X3 at a response 500 whose body is a card token. *)
Lemma ExecuteRequest_decoded_witness :
  returned (@ExecuteRequest (Fake.transport (Fake.response 500 Fake.tokenBody) None)
              _ _ Fake.CardToken_JSON Fake.RemoteError_JSON
              Fake.client Fake.request (Some Fake.emptyToken) (Some Fake.emptyError)
              Fake.world)
  = None
  /\ sink (@ExecuteRequest (Fake.transport (Fake.response 500 Fake.tokenBody) None)
             _ _ Fake.CardToken_JSON Fake.RemoteError_JSON
             Fake.client Fake.request (Some Fake.emptyToken) (Some Fake.emptyError)
             Fake.world)
     = Some {| Fake.status := "success"; Fake.cardToken := "abc" |}.
Proof.
  pose proof (@ExecuteRequest_decoded
                (Fake.transport (Fake.response 500 Fake.tokenBody) None)
                _ _ Fake.CardToken_JSON Fake.RemoteError_JSON
                Fake.client Fake.request Fake.emptyToken
                {| Fake.status := "success"; Fake.cardToken := "abc" |}
                (Some Fake.emptyError) Fake.world
                (Fake.response 500 Fake.tokenBody) Fake.tokenBody) as Hthm.
  destruct Hthm as (Hret & Hsink & _).
  - reflexivity.
  - reflexivity.
  - simpl. lia.
  - simpl. lia.
  - vm_compute. reflexivity.
  - split; assumption.
Defined.

(** X4 at a transport that cannot connect. *)
Lemma ExecuteRequest_transport_error_witness :
  returned (@ExecuteRequest Sample.down _ _ Fake.CardToken_JSON Fake.RemoteError_JSON
              Fake.client Fake.request (Some Fake.emptyToken) (Some Fake.emptyError)
              Fake.world)
  = Some Sample.refused.
Proof.
  apply (@ExecuteRequest_transport_error Sample.down
           _ _ Fake.CardToken_JSON Fake.RemoteError_JSON
           Fake.client Fake.request (Some Fake.emptyToken) (Some Fake.emptyError)
           Fake.world (Fake.response 0 "") Sample.refused).
  reflexivity.
Defined.

(** X5 at a response 200 whose body breaks off. *)
Lemma ExecuteRequest_read_error_witness :
  returned (@ExecuteRequest (Fake.transport (Fake.brokenResponse 200 "{") None)
              _ _ Fake.CardToken_JSON Fake.RemoteError_JSON
              Fake.client Fake.request (Some Fake.emptyToken) (Some Fake.emptyError)
              Fake.world)
  = Some (foreignError "unexpected EOF").
Proof.
  apply (@ExecuteRequest_read_error (Fake.transport (Fake.brokenResponse 200 "{") None)
           _ _ Fake.CardToken_JSON Fake.RemoteError_JSON
           Fake.client Fake.request (Some Fake.emptyToken) (Some Fake.emptyError)
           Fake.world (Fake.brokenResponse 200 "{") "{" (foreignError "unexpected EOF")).
  - reflexivity.
  - reflexivity.
Defined.

(** X6 at a response 500 whose body is no JSON document, without an error
    sink. *)
Lemma ExecuteRequest_decode_error_without_error_sink_witness :
  returned (@ExecuteRequest (Fake.transport (Fake.response 500 Sample.serverError) None)
              _ _ Fake.CardToken_JSON Fake.RemoteError_JSON
              Fake.client Fake.request (Some Fake.emptyToken) None Fake.world)
  = Some (foreignError "json: cannot unmarshal").
Proof.
  apply (@ExecuteRequest_decode_error_without_error_sink
           (Fake.transport (Fake.response 500 Sample.serverError) None)
           _ _ Fake.CardToken_JSON Fake.RemoteError_JSON
           Fake.client Fake.request Fake.emptyToken Fake.world
           (Fake.response 500 Sample.serverError) Sample.serverError
           (foreignError "json: cannot unmarshal")).
  - reflexivity.
  - reflexivity.
  - simpl. lia.
  - simpl. lia.
  - simpl. lia.
  - vm_compute. reflexivity.
Defined.

(** X7 at a response 500 whose body is no JSON document, with both sinks. *)
Lemma ExecuteRequest_both_decodings_fail_witness :
  returned (@ExecuteRequest (Fake.transport (Fake.response 500 Sample.serverError) None)
              _ _ Fake.CardToken_JSON Fake.RemoteError_JSON
              Fake.client Fake.request (Some Fake.emptyToken) (Some Fake.emptyError)
              Fake.world)
  = Some (foreignError "json: cannot unmarshal").
Proof.
  apply (@ExecuteRequest_both_decodings_fail
           (Fake.transport (Fake.response 500 Sample.serverError) None)
           _ _ Fake.CardToken_JSON Fake.RemoteError_JSON
           Fake.client Fake.request Fake.emptyToken Fake.emptyError Fake.world
           (Fake.response 500 Sample.serverError) Sample.serverError
           (foreignError "json: cannot unmarshal")
           (foreignError "json: cannot unmarshal")).
  - reflexivity.
  - reflexivity.
  - simpl. lia.
  - simpl. lia.
  - simpl. lia.
  - vm_compute. reflexivity.
  - vm_compute. reflexivity.
Defined.

(** X8 at a response 200 whose body is a card token. *)
Lemma ExecuteRequest_nil_means_decoded_witness :
  sink (@ExecuteRequest Fake.tokenTransport _ Fake.RemoteError
          Fake.CardToken_JSON Fake.RemoteError_JSON
          Fake.client Fake.request (Some Fake.emptyToken) None Fake.world)
  = Some {| Fake.status := "success"; Fake.cardToken := "abc" |}.
Proof.
  pose proof (@ExecuteRequest_nil_means_decoded Fake.tokenTransport
                _ Fake.RemoteError Fake.CardToken_JSON Fake.RemoteError_JSON
                Fake.client Fake.request Fake.emptyToken Fake.world) as Hthm.
  destruct Hthm as (_ & _ & _ & _ & _ & Hsink).
  - vm_compute. reflexivity.
  - rewrite Hsink. vm_compute. reflexivity.
Defined.

(** X10 at log level 0 and a transport that cannot connect. *)
Lemma silent_at_level_0_witness :
  after (@Call Sample.down _ _ Fake.CardToken_JSON Fake.RemoteError_JSON
           (Sample.clientAt 0) "POST" "https://bri.test/v1/directdebit/tokens"
           None "{}" (Some Fake.emptyToken) (Some Fake.emptyError) Fake.world)
  = Fake.world.
Proof.
  apply (@silent_at_level_0 Sample.down _ _ Fake.CardToken_JSON Fake.RemoteError_JSON
           (Sample.clientAt 0) Fake.request "POST"
           "https://bri.test/v1/directdebit/tokens" None "{}"
           (Some Fake.emptyToken) (Some Fake.emptyError) Fake.world).
  simpl. lia.
Defined.

(** X11 at log level 1 and a response 404. *)
Lemma ExecuteRequest_logs_transport_errors_only_witness :
  after (@ExecuteRequest (Fake.transport (Fake.response 404 "Not Found") None)
           _ _ Fake.CardToken_JSON Fake.RemoteError_JSON
           (Sample.clientAt 1) Fake.request (Some Fake.emptyToken)
           (Some Fake.emptyError) Fake.world)
  = Fake.world.
Proof.
  apply (@ExecuteRequest_logs_transport_errors_only
           (Fake.transport (Fake.response 404 "Not Found") None)
           _ _ Fake.CardToken_JSON Fake.RemoteError_JSON
           (Sample.clientAt 1) Fake.request (Some Fake.emptyToken)
           (Some Fake.emptyError) Fake.world (Fake.response 404 "Not Found") "Not Found").
  - simpl. lia.
  - reflexivity.
  - reflexivity.
Defined.

(** X12 at log level 2 and a response 200. *)
Lemma ExecuteRequest_never_logs_body_below_debug_witness :
  Forall (fun line =>
            head line = Some (LStr "Request ")
            \/ head line = Some (LStr "Cannot send request: ")
            \/ head line = Some (LStr "Cannot read response body: "))
         (drop (length (logged Fake.world))
            (logged (after (@ExecuteRequest Fake.tokenTransport
                              _ _ Fake.CardToken_JSON Fake.RemoteError_JSON
                              (Sample.clientAt 2) Fake.request (Some Fake.emptyToken)
                              (Some Fake.emptyError) Fake.world)))).
Proof.
  apply (@ExecuteRequest_never_logs_body_below_debug Fake.tokenTransport
           _ _ Fake.CardToken_JSON Fake.RemoteError_JSON
           (Sample.clientAt 2) Fake.request (Some Fake.emptyToken)
           (Some Fake.emptyError) Fake.world).
  simpl. lia.
Defined.


(** X14 at the client of [NewClient] and a response 200. *)
Lemma ExecuteRequest_logs_request_line_witness :
  logged (after (@ExecuteRequest Fake.tokenTransport
                   _ _ Fake.CardToken_JSON Fake.RemoteError_JSON
                   NewClient Fake.request (Some Fake.emptyToken)
                   (Some Fake.emptyError) Fake.world))
  = [[LStr "Request "; LStr "POST"; LStr ": "; LStr "bri.test";
      LStr "/v1/directdebit/tokens"]].
Proof.
  apply (@ExecuteRequest_logs_request_line Fake.tokenTransport
           _ _ Fake.CardToken_JSON Fake.RemoteError_JSON
           NewClient Fake.request (Some Fake.emptyToken) (Some Fake.emptyError)
           Fake.world (Fake.response 200 Fake.tokenBody) Fake.tokenBody).
  - reflexivity.
  - reflexivity.
  - reflexivity.
Defined.

(** X20 at a response 200 whose body is an error payload. *)
Lemma ExecuteRequest_fills_error_sink_witness :
  errorSink (@ExecuteRequest (Fake.transport (Fake.response 200 Fake.errorBody) None)
               _ _ Fake.CardToken_JSON Fake.RemoteError_JSON
               Fake.client Fake.request (Some Fake.emptyToken)
               (Some Fake.emptyError) Fake.world)
  = Some {| Fake.errorCode := "E01"; Fake.errorDesc := "bad pan" |}.
Proof.
  pose proof (@ExecuteRequest_fills_error_sink
                (Fake.transport (Fake.response 200 Fake.errorBody) None)
                _ _ Fake.CardToken_JSON Fake.RemoteError_JSON
                Fake.client Fake.request Fake.emptyToken Fake.emptyError Fake.world
                (Fake.response 200 Fake.errorBody) Fake.errorBody
                (foreignError "json: cannot unmarshal")) as Hthm.
  destruct Hthm as (Hsink & _ & _).
  - reflexivity.
  - reflexivity.
  - simpl. lia.
  - simpl. lia.
  - vm_compute. reflexivity.
  - rewrite Hsink. vm_compute. reflexivity.
Defined.

(** X15 at a map with two spellings of Content-Type: the request has one
    Content-Type header, with the value of one of the two. *)
Lemma NewRequest_attaches_headers_witness :
  exists r : http.Request,
    (@NewRequest Fake.tokenTransport Fake.client "POST"
       "https://bri.test/v1/directdebit/tokens" (Some Sample.clashing) "{}"
       Fake.world) = (inl r, Fake.world)
    /\ (size (http.Header r) <= 2)%nat
    /\ exists k' v',
         textproto.CanonicalMIMEHeaderKey k' = "Content-Type"
         /\ Sample.clashing !! k' = Some v'
         /\ http.Header_Get "content-type" (http.Header r) = v'.
Proof.
  eexists. split; [vm_compute; reflexivity|].
  destruct (@NewRequest_attaches_headers Fake.tokenTransport Fake.client "POST"
              "https://bri.test/v1/directdebit/tokens" Sample.clashing "{}"
              Fake.world _ Fake.world eq_refl) as (Hsome & _ & _ & Hsize).
  split; [exact Hsize|].
  apply (Hsome "content-type" "text/plain"). reflexivity.
Defined.

(** X16 at a request without headers. *)
Lemma NewRequest_without_headers_witness :
  exists r : http.Request,
    (@NewRequest Fake.tokenTransport Fake.client "POST"
       "https://bri.test/v1/directdebit/tokens" None "{}" Fake.world)
    = (inl r, Fake.world)
    /\ http.Header r = ∅.
Proof.
  eexists. split; [vm_compute; reflexivity|].
  apply (proj2 (@NewRequest_without_headers Fake.tokenTransport Fake.client "POST"
                  "https://bri.test/v1/directdebit/tokens" "{}" Fake.world)
               _ Fake.world eq_refl).
Defined.

(** X17 at a method with a blank in it. *)
Lemma Call_request_creation_failed_witness :
  returned (@Call Fake.tokenTransport _ _ Fake.CardToken_JSON Fake.RemoteError_JSON
              Fake.client "PO ST" "https://bri.test/v1/directdebit/tokens" None "{}"
              (Some Fake.emptyToken) (Some Fake.emptyError) Fake.world)
  = Some (foreignError "net/http: invalid method PO ST").
Proof.
  rewrite (@Call_request_creation_failed Fake.tokenTransport
             _ _ Fake.CardToken_JSON Fake.RemoteError_JSON
             Fake.client "PO ST" "https://bri.test/v1/directdebit/tokens" None "{}"
             (Some Fake.emptyToken) (Some Fake.emptyError) Fake.world
             (foreignError "net/http: invalid method PO ST")).
  - reflexivity.
  - reflexivity.
Defined.

(** X19 at the endpoint variables as first set. *)
Lemma operations_routed_apart_witness :
  endpoint OpCreateCardTokenOTP (urls Fake.world)
  = endpoint OpCreateCardTokenOTPVerify (urls Fake.world)
  /\ verb OpCreateCardTokenOTP <> verb OpCreateCardTokenOTPVerify.
Proof.
  apply (operations_routed_apart (urls Fake.world)).
  left. exists "/v1/directdebit/tokens", "/v1/directdebit/charges/inquiry",
    "/v1/directdebit/refunds". reflexivity.
Defined.
